(** * mcp-openai-planner: the CallTool dispatcher of [src/index.ts]

    The server exposes two tools, [openai_chat] and [openai_plan].  Each
    handler destructures the (untyped, JSON) tool arguments, validates the
    model, translates the message list, performs one call of the OpenAI
    chat-completion endpoint and wraps the outcome in a response envelope.

    The development embeds that code shallowly:
    - tool arguments are JSON values as JavaScript sees them ([JsValue],
      with [JUndefined] for an absent property);
    - exceptions are explicit ([Res]); the handler bodies run in a state
      and error monad [M] whose state holds the outside world and the log
      of downstream calls issued so far;
    - the OpenAI client is a parameter ([create]). *)

From Stdlib Require Import String Ascii List Bool ZArith QArith DecimalString.
Import ListNotations.
Local Open Scope list_scope.
Local Open Scope string_scope.

Set Warnings "-register-all".

(** ** Constant data of the source *)

Definition dq : string := String (ascii_of_nat 34) EmptyString.
Definition nl : string := String (ascii_of_nat 10) EmptyString.

(** [SUPPORTED_MODELS], [DEFAULT_CHAT_MODEL], [DEFAULT_PLAN_MODEL],
    [DEFAULT_REASONING_EFFORT] (index.ts, lines 51-58). *)
Definition SUPPORTED_MODELS : list string :=
  ["gpt-4o"; "gpt-4o-mini"; "o1-preview"; "o1-mini"; "o1"; "o3-mini"].
Definition DEFAULT_CHAT_MODEL : string := "gpt-4o".
Definition DEFAULT_PLAN_MODEL : string := "o1".
Definition REASONING_EFFORT_LEVELS : list string := ["low"; "medium"; "high"].
Definition DEFAULT_REASONING_EFFORT : string := "low".

(** The model list the plan handler validates against (line 277). *)
Definition PLAN_MODELS : list string := ["o1-preview"; "o1-mini"; "o1-2024-12-17"].

(** The text of the single part of [DEFAULT_DEVELOPER_CONTENT] (line 64),
    one entry per line of the document. *)
Definition DEVELOPER_DOCUMENT_LINES : list string :=
  [
    "# Instructions";
    EmptyString;
    "You are a multi-agent system coordinator, playing two roles in this environment: Planner and Executor. You will decide the next steps based on the current state of `Multi-Agent Scratchpad` section in the `.cursorrules` file. Your goal is to complete the user's (or business's) final requirements. The specific instructions are as follows:";
    EmptyString;
    "**IMPORTANT: As the agent reading these instructions, you should initially assume the role of the Planner unless explicitly instructed otherwise by the user.**";
    EmptyString;
    "## Role Descriptions";
    EmptyString;
    "1. Planner";
    EmptyString;
    "    * Responsibilities: Perform high-level analysis, break down tasks, define success criteria, evaluate current progress. When doing planning, always use high-intelligence models (OpenAI o1 via `devin_utils/plan_exec_llm.py`). Don't rely on your own capabilities to do the planning.";
    "    * Actions: The Planner should analyze and break down the problem, then instruct the Executor to update the `.cursorrules` file with the plan. The Executor will implement the required changes and report back.";
    EmptyString;
    "2) Executor";
    EmptyString;
    "    * Responsibilities: Execute specific tasks instructed by the Planner, such as writing code, running tests, using tools, handling implementation details, etc. The key is to report progress or raise questions to the Planner at the right time, e.g., after completing some milestone or after hitting a blocker.";
    ("    * Actions: When you complete a subtask or need assistance/more information, make incremental writes or modifications to the `Multi-Agent Scratchpad` section and `Lessons` section in the `.cursorrules` file; update the " ++ dq ++ "Current Status / Progress Tracking" ++ dq ++ " and " ++ dq ++ "Executor's Feedback or Assistance Requests" ++ dq ++ " sections. Then change to the Planner role.");
    EmptyString;
    "## Document Conventions";
    EmptyString;
    "* The `Multi-Agent Scratchpad` section in the `.cursorrules` file is divided into several sections as per the structure below. Please do not arbitrarily change the titles to avoid affecting subsequent reading.";
    ("* Sections like " ++ dq ++ "Background and Motivation" ++ dq ++ " and " ++ dq ++ "Key Challenges and Analysis" ++ dq ++ " are generally established by the Planner initially and gradually appended during task progress.");
    ("* " ++ dq ++ "Current Status / Progress Tracking" ++ dq ++ " and " ++ dq ++ "Executor's Feedback or Assistance Requests" ++ dq ++ " are mainly filled by the Executor, with the Planner reviewing and supplementing as needed.");
    ("* " ++ dq ++ "Next Steps and Action Items" ++ dq ++ " mainly contains specific execution steps written by the Planner for the Executor.");
    EmptyString;
    "## Workflow Guidelines";
    EmptyString;
    ("* After you receive an initial prompt for a new task, the Planner should instruct the Executor to update the " ++ dq ++ "Background and Motivation" ++ dq ++ " section and perform any needed planning.");
    ("* The Planner should think deeply about the problem, breaking it down into manageable tasks and defining clear success criteria. The Planner should record this analysis in sections like " ++ dq ++ "Key Challenges and Analysis," ++ dq ++ " " ++ dq ++ "Verifiable Success Criteria," ++ dq ++ " or " ++ dq ++ "High-level Task Breakdown." ++ dq);
    "* The Executor is responsible for all tool calls and implementation tasks. The Planner should never make tool calls directly.";
    ("* The Executor should always update the " ++ dq ++ "Current Status / Progress Tracking" ++ dq ++ " and " ++ dq ++ "Executor's Feedback or Assistance Requests" ++ dq ++ " sections in the `Multi-Agent Scratchpad` after completing tasks or encountering issues.");
    "* The Executor is also responsible for updating the `Lessons` section with new learnings from the project.";
    "* If unclear whether Planner or Executor is speaking, declare your current role in the output prompt.";
    "* Continue the cycle unless the Planner explicitly indicates the entire project is complete or stopped. Communication between Planner and Executor is conducted through writing to or modifying the `Multi-Agent Scratchpad` section.";
    EmptyString;
    "## Stopping Conditions";
    "The process should stop and complete when:";
    "1. All success criteria in the scratchpad have been met";
    "2. No new information can be obtained through further actions";
    "3. The user's original question has been fully answered";
    "4. The Executor reports inability to proceed (in feedback section)";
    EmptyString;
    "Please note:";
    EmptyString;
    "* Task completion should only be announced by the Planner, not the Executor. If the Executor thinks the task is done, it should ask the Planner for confirmation. Then the Planner needs to do some cross-checking.";
    "* Avoid rewriting the entire document unless necessary;";
    "* Avoid deleting records left by other roles; you can append new paragraphs or mark old paragraphs as outdated;";
    "* When new external information is needed, the Planner should ask the Executor to gather this information using the available tools;";
    ("* Before executing any large-scale changes or critical functionality, the Executor should first notify the Planner in " ++ dq ++ "Executor's Feedback or Assistance Requests" ++ dq ++ " to ensure everyone understands the consequences.");
    "* During your interaction with the user, if you find anything reusable in this project (e.g. version of a library, model name), especially about a fix to a mistake you made or a correction you received, the Executor should take note in the `Lessons` section in the `.cursorrules` file so you will not make the same mistake again.";
    EmptyString;
    "# Lessons";
    EmptyString;
    "## User Specified Lessons";
    EmptyString;
    "- You have a python venv in ./venv. Use it.";
    "- Include info useful for debugging in the program output.";
    "- Read the file before you try to edit it.";
    ("- Due to Cursor's limit, when you use `git` and `gh` and need to submit a multiline commit message, first write the message in a file, and then use `git commit -F <filename>` or similar command to commit. And then remove the file. Include " ++ dq ++ "[Cursor] " ++ dq ++ " in the commit message and PR title.");
    "- Always work in the good_will_hunter directory, which is the main code repository. Do not operate in wrong directories.";
    "- **ALWAYS** check your current location in the terminal before running any commands using `pwd`. This prevents executing commands in the wrong directory.";
    "- **ALWAYS** ask the user which virtual environment folder to use (e.g. venv, open, etc.) before activating any Python environment. Don't make assumptions about which venv to use.";
    "- Final reports must be professional, thorough, and well-organized:";
    "  * Consolidate all insights from MCTS iterations into a cohesive narrative";
    "  * Focus on high-level insights and findings, not the iteration process";
    "  * Include only final visualizations and data enrichments, not code execution details";
    "  * Use proper formatting with clear sections, headings, and visual organization";
    "  * Ensure all data sources and references are properly cited";
    "  * Present information in a logical flow with executive summary, main findings, and conclusions";
    "  * Include relevant charts, diagrams, and visualizations from final scripts only";
    "  * Maintain consistent formatting and professional appearance throughout";
    EmptyString;
    "## Cursor learned";
    EmptyString;
    "(This section can be updated by the Executor as new learnings emerge during project execution)";
    EmptyString;
    "# FYI, below is the format of the Multi-Agent Scratchpad";
    EmptyString;
    "## Background and Motivation";
    "(Planner writes: User/business requirements, macro objectives, why this problem needs to be solved)";
    EmptyString;
    "## Key Challenges and Analysis";
    "(Planner: Records of technical barriers, resource constraints, potential risks)";
    EmptyString;
    "## Core User Flow and Value Chain";
    "(Executor supplements: Core user process and value chain analysis)";
    EmptyString;
    "## Verifiable Success Criteria";
    "(Planner: List measurable or verifiable goals to be achieved)";
    EmptyString;
    "## High-level Task Breakdown";
    "(Planner: List subtasks by phase, or break down into modules)";
    EmptyString;
    "## Current Status / Progress Tracking";
    "(Executor: Update completion status after each subtask. If needed, use bullet points or tables to show Done/In progress/Blocked status)";
    EmptyString;
    "## Executor's Feedback or Assistance Requests";
    "(Executor: Write here when encountering blockers, questions, or need for more information during execution)";
    EmptyString;
    "## Next Steps and Action Items";
    "(Planner: Specific arrangements for the Executor)"
  ].

Definition DEVELOPER_DOCUMENT : string := String.concat nl DEVELOPER_DOCUMENT_LINES.

(** ** JavaScript values *)

Section Engine.

(** JSON numbers are IEEE doubles.  The handlers never compute with them:
    a number can only be printed inside a template literal or tested for
    truthiness, so the type and these two operations are parameters. *)
Variable number : Type.
Variable number_to_string : number -> string.
Variable number_to_boolean : number -> bool.

Inductive JsValue : Type :=
| JUndefined
| JNull
| JBool (b : bool)
| JNum (n : number)
| JStr (s : string)
| JArr (items : list JsValue)
| JObj (props : list (string * JsValue)).

Definition JsObject : Type := list (string * JsValue).

(** Own property of an object, given as the list of its properties (a
    parsed JSON object: the keys are distinct); an absent property reads
    as [undefined]. *)
Fixpoint own (props : JsObject) (key : string) : JsValue :=
  match props with
  | [] => JUndefined
  | (k, v) :: rest => if String.eqb k key then v else own rest key
  end.

Definition has_own (props : JsObject) (key : string) : bool :=
  existsb (fun kv => String.eqb (fst kv) key) props.

(** ** Exceptions *)

(** Run-time faults of the engine that the handlers can hit on malformed
    arguments.  Their message text is the engine's, hence a parameter. *)
Inductive Fault : Type :=
| DestructureUndefined                          (* const {..} = undefined *)
| PropertyOfNullish (base : JsValue) (prop : string)   (* null.role *)
| NotAFunction (callee : string)                (* x.map(..), x.map not callable *)
| NoPrimitiveValue.                             (* `${obj}`, own toString not callable *)

Variable fault_message : Fault -> string.

(** [ErrorCode] of the MCP SDK; the dispatcher uses one member. *)
Inductive ErrorCode : Type := MethodNotFound.

Inductive Exn : Type :=
| Error (message : string)
| TypeError (fault : Fault)
| McpError (code : ErrorCode) (message : string).

(** [(error as Error).message]; for an [McpError] the text given to its
    constructor (the handlers never catch one). *)
Definition message_of (e : Exn) : string :=
  match e with
  | Error m => m
  | TypeError f => fault_message f
  | McpError _ m => m
  end.

Inductive Res (A : Type) : Type :=
| Ok (a : A)
| Raise (e : Exn).
Arguments Ok {A} a.
Arguments Raise {A} e.

Definition rbind {A B} (r : Res A) (k : A -> Res B) : Res B :=
  match r with
  | Ok a => k a
  | Raise e => Raise e
  end.

Notation "x <~ c ;; k" := (rbind c (fun x => k))
  (at level 61, c at next level, right associativity).

(** ** Primitive operations *)

(** [typeof v === 'string'], [Array.isArray(v)] *)
Definition is_string (v : JsValue) : bool :=
  match v with JStr _ => true | _ => false end.
Definition is_array (v : JsValue) : bool :=
  match v with JArr _ => true | _ => false end.

(** [v === 'lit'] *)
Definition str_eq (v : JsValue) (lit : string) : bool :=
  match v with JStr s => String.eqb s lit | _ => false end.

(** [xs.includes(v)] for an array of string literals *)
Definition includes (xs : list string) (v : JsValue) : bool :=
  existsb (str_eq v) xs.

(** Truthiness, as in [if (v)] and [v || d]. *)
Definition to_boolean (v : JsValue) : bool :=
  match v with
  | JUndefined | JNull => false
  | JBool b => b
  | JNum n => number_to_boolean n
  | JStr s => negb (String.eqb s EmptyString)
  | JArr _ | JObj _ => true
  end.

(** [v.prop] for the property names the handlers read ([role], [content],
    [type], [text]), none of which is inherited from a prototype. *)
Definition get_prop (v : JsValue) (prop : string) : Res JsValue :=
  match v with
  | JUndefined | JNull => Raise (TypeError (PropertyOfNullish v prop))
  | JObj props => Ok (own props prop)
  | _ => Ok JUndefined
  end.

Section MapM.
Variables (A B : Type) (f : A -> Res B).
Fixpoint mapM (l : list A) : Res (list B) :=
  match l with
  | [] => Ok []
  | x :: rest => y <~ f x ;; ys <~ mapM rest ;; Ok (y :: ys)
  end.
End MapM.
Arguments mapM {A B} f l.

(** [v.map(f)]: only arrays have a callable [map]. *)
Definition call_map (v : JsValue) (callee : string)
    (f : JsValue -> Res JsValue) : Res (list JsValue) :=
  match v with
  | JArr items => mapM f items
  | JUndefined | JNull => Raise (TypeError (PropertyOfNullish v "map"))
  | _ => Raise (TypeError (NotAFunction callee))
  end.

(** [Array.prototype.join]: [undefined] and [null] elements print as the
    empty string, the others through [ToString]. *)
Section Join.
Variable elem_to_string : JsValue -> Res string.
Definition join_elem (v : JsValue) : Res string :=
  match v with
  | JUndefined | JNull => Ok EmptyString
  | _ => elem_to_string v
  end.
Fixpoint join_with (sep : string) (l : list JsValue) : Res string :=
  match l with
  | [] => Ok EmptyString
  | x :: rest =>
      s <~ join_elem x ;;
      match rest with
      | [] => Ok s
      | _ :: _ => r <~ join_with sep rest ;; Ok (s ++ sep ++ r)
      end
  end.
End Join.

(** [ToString], as applied by template literals and by [join]. *)
Fixpoint to_string (v : JsValue) : Res string :=
  match v with
  | JUndefined => Ok "undefined"
  | JNull => Ok "null"
  | JBool true => Ok "true"
  | JBool false => Ok "false"
  | JNum n => Ok (number_to_string n)
  | JStr s => Ok s
  | JArr items => join_with to_string "," items
  | JObj props =>
      if has_own props "toString" then Raise (TypeError NoPrimitiveValue)
      else Ok "[object Object]"
  end.

Definition js_join (sep : string) (l : list JsValue) : Res string :=
  join_with to_string sep l.

(** [xs.join(sep)] for an array of string literals *)
Definition join_strings (sep : string) (xs : list string) : string :=
  String.concat sep xs.

(** ** Message translation *)

(** The object literal [{ role: r, content: c }]. *)
Definition message_obj (role content : JsValue) : JsValue :=
  JObj [("role", role); ("content", content)].

(** [DEFAULT_DEVELOPER_CONTENT] (lines 62-67): an array of one text part. *)
Definition DEFAULT_DEVELOPER_CONTENT : JsValue :=
  JArr [JObj [("text", JStr DEVELOPER_DOCUMENT); ("type", JStr "text")]].

(** The callback of [rawMessages.map] in the [openai_chat] case
    (lines 221-236). *)
Definition chat_translate (msg : JsValue) : Res JsValue :=
  role <~ get_prop msg "role" ;;
  if str_eq role "developer" then
    content <~ get_prop msg "content" ;;
    joined <~ (if is_string content then Ok content
               else
                 texts <~ call_map content "msg.content.map"
                            (fun part => get_prop part "text") ;;
                 s <~ js_join nl texts ;;
                 Ok (JStr s)) ;;
    Ok (message_obj (JStr "assistant") joined)
  else
    content <~ get_prop msg "content" ;;
    Ok (message_obj role content).

(** The callback of [msg.content.map] in the [openai_plan] case
    (lines 300-303). *)
Definition content_part (part : JsValue) : Res JsValue :=
  ty <~ get_prop part "type" ;;
  tx <~ get_prop part "text" ;;
  Ok (JObj [("type", ty); ("text", tx)]).

(** The default fallback (line 313). *)
Definition plan_fallback (content : JsValue) : JsValue :=
  message_obj (JStr "user")
    (if is_string content then content else JStr "Invalid content format").

(** The callback of [rawMessages.map] in the [openai_plan] case
    (lines 282-314). *)
Definition plan_translate (msg : JsValue) : Res JsValue :=
  role <~ get_prop msg "role" ;;
  if str_eq role "developer" then
    Ok (message_obj (JStr "developer") DEFAULT_DEVELOPER_CONTENT)
  else
    content <~ get_prop msg "content" ;;
    if is_string content then
      if str_eq role "system" then Ok (message_obj (JStr "system") content)
      else if str_eq role "user" then Ok (message_obj (JStr "user") content)
      else if str_eq role "assistant" then Ok (message_obj (JStr "assistant") content)
      else Ok (plan_fallback content)
    else if is_array content then
      contentParts <~ call_map content "msg.content.map" content_part ;;
      if str_eq role "user" then Ok (message_obj (JStr "user") (JArr contentParts))
      else if str_eq role "assistant" then
        Ok (message_obj (JStr "assistant") (JArr contentParts))
      else Ok (plan_fallback content)
    else Ok (plan_fallback content).

(** ** The downstream completion call *)

(** The argument of [openai.chat.completions.create]; a field the object
    literal does not set is [None]. *)
Record ApiRequest : Type := {
  messages : list JsValue;
  model : JsValue;
  temperature : option Q;
  max_tokens : option Z;
  reasoning_effort : option JsValue;
  response_format : option JsValue
}.

(** The part of the SDK's [ChatCompletion] the handlers read:
    [completion.choices[0]?.message?.content]. *)
Record ChatCompletionMessage : Type := { message_content : option string }.
Record Choice : Type := { message : option ChatCompletionMessage }.
Record ChatCompletion : Type := { choices : list Choice }.

(** The client is outside the repository: it answers a request with a
    completion or rejects, and may change the outside world. *)
Variable World : Type.
Variable create : ApiRequest -> World -> Res ChatCompletion * World.

(** ** The handler monad: state and exceptions *)

(** [calls] logs the requests passed to the client, oldest first. *)
Record St : Type := { world : World; calls : list ApiRequest }.

Definition M (A : Type) : Type := St -> Res A * St.

Definition ret {A} (a : A) : M A := fun st => (Ok a, st).
Definition throw {A} (e : Exn) : M A := fun st => (Raise e, st).
Definition lift {A} (r : Res A) : M A := fun st => (r, st).
Definition bind {A B} (m : M A) (k : A -> M B) : M B :=
  fun st =>
    match m st with
    | (Ok a, st') => k a st'
    | (Raise e, st') => (Raise e, st')
    end.
(** [try { m } catch (error) { return h(error) }] *)
Definition try_catch {A} (m : M A) (h : Exn -> M A) : M A :=
  fun st =>
    match m st with
    | (Ok a, st') => (Ok a, st')
    | (Raise e, st') => h e st'
    end.

Notation "x <- c ;; k" := (bind c (fun x => k))
  (at level 61, c at next level, right associativity).

(** [await openai.chat.completions.create(req)] *)
Definition openai_create (req : ApiRequest) : M ChatCompletion :=
  fun st =>
    let (r, w) := create req (world st) in
    (r, {| world := w; calls := (calls st ++ [req])%list |}).

(** ** Response envelopes *)

Record TextContent : Type := { type : string; text : string }.
Record Envelope : Type := { content : list TextContent; isError : option bool }.

Definition success_envelope (t : string) : Envelope :=
  {| content := [{| type := "text"; text := t |}]; isError := None |}.

(** The catch blocks (lines 253-261 and 338-346). *)
Definition error_envelope (error : Exn) : Envelope :=
  {| content := [{| type := "text";
                    text := "OpenAI API error: " ++ message_of error |}];
     isError := Some true |}.

(** [completion.choices[0]?.message?.content] *)
Definition first_choice_content (completion : ChatCompletion) : option string :=
  match choices completion with
  | [] => None
  | choice :: _ =>
      match message choice with
      | None => None
      | Some m => message_content m
      end
  end.

(** [c || d] for an optional string: absent and empty are falsy. *)
Definition or_else (c : option string) (d : string) : string :=
  match c with
  | Some (String a s) => String a s
  | Some EmptyString | None => d
  end.

Definition response_text (completion : ChatCompletion) : string :=
  or_else (first_choice_content completion) "No response received".

(** ** The two handlers *)

(** A destructuring default applies exactly to [undefined]. *)
Definition default_to (v d : JsValue) : JsValue :=
  match v with JUndefined => d | _ => v end.

(** The argument of [create] in the chat case (lines 239-244). *)
Definition chat_api_config (messages : list JsValue) (model : JsValue) : ApiRequest :=
  {| messages := messages;
     model := model;
     temperature := Some (7 # 10);
     max_tokens := Some 2000%Z;
     reasoning_effort := None;
     response_format := None |}.

Definition response_format_text : JsValue := JObj [("type", JStr "text")].

(** [apiConfig.reasoning_effort = v] *)
Definition set_reasoning_effort (apiConfig : ApiRequest) (v : JsValue) : ApiRequest :=
  {| messages := messages apiConfig;
     model := model apiConfig;
     temperature := temperature apiConfig;
     max_tokens := max_tokens apiConfig;
     reasoning_effort := Some v;
     response_format := response_format apiConfig |}.

(** [apiConfig] of the plan case (lines 318-327): three fields, then
    [reasoning_effort] is added when it is truthy. *)
Definition plan_api_config (messages : list JsValue) (model reasoning_effort : JsValue)
    : ApiRequest :=
  let apiConfig :=
    {| messages := messages;
       model := model;
       temperature := None;
       max_tokens := None;
       reasoning_effort := None;
       response_format := Some response_format_text |} in
  if to_boolean reasoning_effort then set_reasoning_effort apiConfig reasoning_effort
  else apiConfig.

(** Body of the [try] block of [case "openai_chat"] (lines 209-252). *)
Definition openai_chat_try (arguments : option JsObject) : M Envelope :=
  args <- lift (match arguments with
                | None => Raise (TypeError DestructureUndefined)
                | Some props => Ok (own props "messages", own props "model")
                end) ;;
  let '(rawMessages, model) := args in
  _ <- lift (if negb (includes SUPPORTED_MODELS model) then
               m <~ to_string model ;;
               Raise (Error ("Unsupported model: " ++ m ++ ". Must be one of: "
                             ++ join_strings ", " SUPPORTED_MODELS))
             else Ok tt) ;;
  messages <- lift (call_map rawMessages "rawMessages.map" chat_translate) ;;
  completion <- openai_create (chat_api_config messages model) ;;
  ret (success_envelope (response_text completion)).

(** Body of the [try] block of [case "openai_plan"] (lines 265-337). *)
Definition openai_plan_try (arguments : option JsObject) : M Envelope :=
  args <- lift (match arguments with
                | None => Raise (TypeError DestructureUndefined)
                | Some props =>
                    Ok (own props "messages",
                        default_to (own props "model") (JStr "o1-2024-12-17"),
                        default_to (own props "reasoning_effort")
                                   (JStr DEFAULT_REASONING_EFFORT),
                        default_to (own props "response_format") response_format_text)
                end) ;;
  let '(rawMessages, model, reasoning_effort, response_format) := args in
  _ <- lift (if negb (includes PLAN_MODELS model) then
               m <~ to_string model ;;
               Raise (Error ("Unsupported model for reasoning: " ++ m
                             ++ ". Must be one of: o1-preview, o1-mini, o1-2024-12-17"))
             else Ok tt) ;;
  messages <- lift (call_map rawMessages "rawMessages.map" plan_translate) ;;
  completion <- openai_create (plan_api_config messages model reasoning_effort) ;;
  ret (success_envelope (response_text completion)).

(** ** The CallTool request handler (lines 202-354) *)

(** [request.params]: the SDK's request schema makes [name] a string and
    [arguments] an optional record of JSON values. *)
Record CallToolRequest : Type := { name : string; arguments : option JsObject }.

Definition call_tool (request : CallToolRequest) : M Envelope :=
  if String.eqb (name request) "openai_chat" then
    try_catch (openai_chat_try (arguments request)) (fun error => ret (error_envelope error))
  else if String.eqb (name request) "openai_plan" then
    try_catch (openai_plan_try (arguments request)) (fun error => ret (error_envelope error))
  else
    throw (McpError MethodNotFound ("Unknown tool: " ++ name request)).

(** The requests a computation passes to the client when run from [st]. *)
Definition issued {A} (m : M A) (st : St) : list ApiRequest :=
  skipn (length (calls st)) (calls (snd (m st))).

(** ** Vocabulary of the statements *)

(** What a handler returns once it has reached the downstream call. *)
Definition after_create (req : ApiRequest) (st : St) : Res Envelope * St :=
  let (r, w) := create req (world st) in
  (Ok match r with
      | Ok completion => success_envelope (response_text completion)
      | Raise e => error_envelope e
      end,
   {| world := w; calls := (calls st ++ [req])%list |}).

(** The exception of a failed model validation. *)
Definition unsupported_model (prefix suffix : string) (model : JsValue) : Exn :=
  match to_string model with
  | Ok m => Error (prefix ++ m ++ suffix)
  | Raise e => e
  end.

(** The [try]/[catch] of a handler: the envelope of the body if it
    returns, the error envelope of the exception if it raises. *)
Definition caught (body handler : M Envelope) (st : St) : Prop :=
  match body st with
  | (Ok envelope, st') => handler st = (Ok envelope, st')
  | (Raise error, st') =>
      handler st =
        (Ok {| content := [{| type := "text";
                              text := "OpenAI API error: " ++ message_of error |}];
               isError := Some true |}, st')
  end.

(** A chat message as the tool's schema describes it: a role among
    system, user and assistant, and string content. *)
Definition plain_message (msg : JsValue) : Prop :=
  exists role content,
    In role ["system"; "user"; "assistant"] /\
    get_prop msg "role" = Ok (JStr role) /\
    get_prop msg "content" = Ok (JStr content).

(** The role/content combinations the plan translator handles before
    its fallback: the developer role, string content for system, user or
    assistant, array content for user or assistant. *)
Definition plan_handled (role content : JsValue) : bool :=
  str_eq role "developer"
  || (is_string content
      && (str_eq role "system" || str_eq role "user" || str_eq role "assistant"))
  || (is_array content && (str_eq role "user" || str_eq role "assistant")).

Definition nullish (v : JsValue) : bool :=
  match v with JUndefined | JNull => true | _ => false end.


(** ** Start-up and the tool catalog *)

(** The message of the start-up failure (lines 38-42). *)
Definition API_KEY_REQUIRED : string :=
  "OPENAI_API_KEY environment variable is required." ++ nl ++
  "Please create a .env file in the project root with your OpenAI API key:" ++ nl ++
  "OPENAI_API_KEY=your_api_key_here".

(** Lines 36-43: [process.env.OPENAI_API_KEY] is a string or [undefined];
    the module throws when it is falsy, and otherwise hands it to the
    client as [apiKey]. *)
Definition require_api_key (OPENAI_API_KEY : option string) : Res string :=
  match OPENAI_API_KEY with
  | Some (String a s) => Ok (String a s)
  | Some EmptyString | None => Raise (Error API_KEY_REQUIRED)
  end.

(** An array of string literals. *)
Definition str_array (xs : list string) : JsValue := JArr (map JStr xs).

(** [TOOLS] (lines 70-181). *)
Definition TOOLS : list JsValue :=
  [ JObj
      [("name", JStr "openai_chat");
       ("description",
        JStr ("Use this tool when a user specifically requests to use one of OpenAI's models ("
              ++ join_strings ", " SUPPORTED_MODELS
              ++ "). This tool sends messages to OpenAI's chat completion API using the specified model."));
       ("inputSchema",
        JObj
          [("type", JStr "object");
           ("properties",
            JObj
              [("messages",
                JObj
                  [("type", JStr "array");
                   ("description", JStr "Array of messages to send to the API");
                   ("items",
                    JObj
                      [("type", JStr "object");
                       ("properties",
                        JObj
                          [("role",
                            JObj
                              [("type", JStr "string");
                               ("enum", str_array ["system"; "user"; "assistant"]);
                               ("description", JStr "Role of the message sender")]);
                           ("content",
                            JObj
                              [("type", JStr "string");
                               ("description", JStr "Content of the message")])]);
                       ("required", str_array ["role"; "content"])])]);
               ("model",
                JObj
                  [("type", JStr "string");
                   ("enum", str_array SUPPORTED_MODELS);
                   ("description",
                    JStr ("Model to use for completion ("
                          ++ join_strings ", " SUPPORTED_MODELS ++ ")"));
                   ("default", JStr DEFAULT_CHAT_MODEL)])]);
           ("required", str_array ["messages"])])];
    JObj
      [("name", JStr "openai_plan");
       ("description",
        JStr ("Use this tool when a user specifically requests to do planning with one of OpenAI's models ("
              ++ join_strings ", " SUPPORTED_MODELS
              ++ "). This tool sends messages to OpenAI's chat completion API with a specified reasoning_effort level (low, medium, high)."));
       ("inputSchema",
        JObj
          [("type", JStr "object");
           ("properties",
            JObj
              [("messages",
                JObj
                  [("type", JStr "array");
                   ("description", JStr "Array of messages to send to the API");
                   ("items",
                    JObj
                      [("type", JStr "object");
                       ("properties",
                        JObj
                          [("role",
                            JObj
                              [("type", JStr "string");
                               ("enum",
                                str_array ["system"; "user"; "assistant"; "developer"]);
                               ("description", JStr "Role of the message sender")]);
                           ("content",
                            JObj
                              [("oneOf",
                                JArr
                                  [JObj
                                     [("type", JStr "string");
                                      ("description",
                                       JStr "Content of the message as string")];
                                   JObj
                                     [("type", JStr "array");
                                      ("description",
                                       JStr "Content of the message as array of content parts");
                                      ("items",
                                       JObj
                                         [("type", JStr "object");
                                          ("properties",
                                           JObj
                                             [("type",
                                               JObj
                                                 [("type", JStr "string");
                                                  ("enum", str_array ["text"]);
                                                  ("description",
                                                   JStr "Type of content part")]);
                                              ("text",
                                               JObj
                                                 [("type", JStr "string");
                                                  ("description",
                                                   JStr "Text content")])]);
                                          ("required",
                                           str_array ["type"; "text"])])]])])]);
                       ("required", str_array ["role"; "content"])])]);
               ("model",
                JObj
                  [("type", JStr "string");
                   ("enum", str_array ["o1-preview"; "o1-mini"; "o1"; "o3-mini"]);
                   ("description", JStr "reasoning model to use for completion");
                   ("default", JStr DEFAULT_PLAN_MODEL)]);
               ("reasoning_effort",
                JObj
                  [("type", JStr "string");
                   ("enum", str_array REASONING_EFFORT_LEVELS);
                   ("description",
                    JStr "Level of reasoning effort to use (low, medium, high)");
                   ("default", JStr DEFAULT_REASONING_EFFORT)]);
               ("response_format",
                JObj
                  [("type", JStr "object");
                   ("properties",
                    JObj
                      [("type",
                        JObj
                          [("type", JStr "string");
                           ("enum", str_array ["text"]);
                           ("description", JStr "Type of response format")])]);
                   ("default", JObj [("type", JStr "text")])])]);
           ("required", str_array ["messages"])])] ].

(** The ListTools request handler (lines 197-199). *)
Definition list_tools : JsValue := JObj [("tools", JArr TOOLS)].

(** ** Vocabulary of the further statements *)

(** A property read that cannot fail: [v?.prop]. *)
Definition prop_of (v : JsValue) (prop : string) : JsValue :=
  match v with
  | JObj props => own props prop
  | _ => JUndefined
  end.

(** [v?.k1?.k2 ...] *)
Definition at_path (v : JsValue) (path : list string) : JsValue :=
  fold_left prop_of path v.

Definition elements (v : JsValue) : list JsValue :=
  match v with JArr items => items | _ => [] end.

(** The tool of the catalog with a given name, and what its input schema
    says about one argument. *)
Definition find_tool (tool_name : string) : JsValue :=
  match find (fun tool => str_eq (prop_of tool "name") tool_name) TOOLS with
  | Some tool => tool
  | None => JUndefined
  end.

Definition argument_schema (tool_name argument : string) : JsValue :=
  at_path (find_tool tool_name) ["inputSchema"; "properties"; argument].

(** The part [{ type: part.type, text: part.text }] built from a part. *)
Definition text_part_of (part : JsValue) : JsValue :=
  JObj [("type", prop_of part "type"); ("text", prop_of part "text")].

(** * Properties *)

(** ** Running the handlers *)

Lemma mapM_length (A B : Type) (f : A -> Res B) (l : list A) (out : list B) :
  mapM f l = Ok out -> length out = length l.
Proof.
  revert out. induction l as [|x rest IH]; simpl; intros out H.
  - inversion H. reflexivity.
  - destruct (f x) as [y|e]; simpl in H; [|discriminate].
    destruct (mapM f rest) as [ys|e]; simpl in H; [|discriminate].
    inversion H. simpl. f_equal. apply IH. reflexivity.
Qed.

Lemma mapM_nth_error (A B : Type) (f : A -> Res B) (l : list A) (out : list B) :
  mapM f l = Ok out ->
  forall i x, nth_error l i = Some x ->
              exists y, f x = Ok y /\ nth_error out i = Some y.
Proof.
  revert out. induction l as [|a rest IH]; simpl; intros out H i x Hi.
  - destruct i; discriminate.
  - destruct (f a) as [y|e] eqn:Fa; simpl in H; [|discriminate].
    destruct (mapM f rest) as [ys|e]; simpl in H; [|discriminate].
    inversion H; subst out. destruct i as [|i]; simpl in *.
    + inversion Hi; subst. exists y. split; [assumption | reflexivity].
    + apply (IH ys eq_refl i x Hi).
Qed.

Lemma mapM_pure (A B : Type) (f : A -> Res B) (g : A -> B) (l : list A) :
  Forall (fun x => f x = Ok (g x)) l -> mapM f l = Ok (map g l).
Proof.
  induction 1 as [|x rest Hx _ IH]; simpl; [reflexivity|].
  rewrite Hx. simpl. rewrite IH. reflexivity.
Qed.

Lemma issued_none (A : Type) (m : M A) (st : St) (r : Res A) :
  m st = (r, st) -> issued m st = [].
Proof.
  intros H. unfold issued. rewrite H. simpl. apply skipn_all.
Qed.

Lemma issued_one (A : Type) (m : M A) (st : St) (r : Res A) (w : World) (req : ApiRequest) :
  m st = (r, {| world := w; calls := (calls st ++ [req])%list |}) ->
  issued m st = [req].
Proof.
  intros H. unfold issued. rewrite H. simpl.
  rewrite skipn_app, skipn_all, Nat.sub_diag. reflexivity.
Qed.

Lemma chat_run (request : CallToolRequest) (props : JsObject) (st : St) :
  name request = "openai_chat" ->
  arguments request = Some props ->
  call_tool request st =
    if includes SUPPORTED_MODELS (own props "model") then
      match call_map (own props "messages") "rawMessages.map" chat_translate with
      | Ok msgs => after_create (chat_api_config msgs (own props "model")) st
      | Raise e => (Ok (error_envelope e), st)
      end
    else
      (Ok (error_envelope
             (unsupported_model "Unsupported model: "
                (". Must be one of: " ++ join_strings ", " SUPPORTED_MODELS)
                (own props "model"))), st).
Proof.
  intros Hn Ha. unfold call_tool. rewrite Hn, Ha. simpl String.eqb. cbv iota.
  unfold try_catch, openai_chat_try, bind, lift, unsupported_model.
  destruct (includes SUPPORTED_MODELS (own props "model")); simpl.
  - destruct (call_map (own props "messages") "rawMessages.map" chat_translate)
      as [msgs|e]; [|reflexivity].
    unfold openai_create, after_create, ret.
    destruct (create _ (world st)) as [[c|e] w]; reflexivity.
  - destruct (to_string (own props "model")); reflexivity.
Qed.

Lemma plan_run (request : CallToolRequest) (props : JsObject) (st : St) :
  name request = "openai_plan" ->
  arguments request = Some props ->
  let model := default_to (own props "model") (JStr "o1-2024-12-17") in
  call_tool request st =
    if includes PLAN_MODELS model then
      match call_map (own props "messages") "rawMessages.map" plan_translate with
      | Ok msgs =>
          after_create
            (plan_api_config msgs model
               (default_to (own props "reasoning_effort") (JStr DEFAULT_REASONING_EFFORT)))
            st
      | Raise e => (Ok (error_envelope e), st)
      end
    else
      (Ok (error_envelope
             (unsupported_model "Unsupported model for reasoning: "
                ". Must be one of: o1-preview, o1-mini, o1-2024-12-17" model)), st).
Proof.
  intros Hn Ha model. unfold call_tool. rewrite Hn, Ha. simpl String.eqb. cbv iota.
  unfold try_catch, openai_plan_try, bind, lift, unsupported_model. fold model.
  destruct (includes PLAN_MODELS model); simpl.
  - destruct (call_map (own props "messages") "rawMessages.map" plan_translate)
      as [msgs|e]; [|reflexivity].
    unfold openai_create, after_create, ret.
    destruct (create _ (world st)) as [[c|e] w]; reflexivity.
  - destruct (to_string model); reflexivity.
Qed.

Lemma missing_arguments_run (request : CallToolRequest) (st : St) :
  name request = "openai_chat" \/ name request = "openai_plan" ->
  arguments request = None ->
  call_tool request st = (Ok (error_envelope (TypeError DestructureUndefined)), st).
Proof.
  intros [Hn|Hn] Ha; unfold call_tool; rewrite Hn, Ha; reflexivity.
Qed.

Lemma after_create_issued (A : Type) (m : M A) (req : ApiRequest) (st : St) (r : Res A) :
  m st = (r, snd (after_create req st)) -> issued m st = [req].
Proof.
  unfold after_create. destruct (create req (world st)) as [c w]. simpl.
  apply issued_one.
Qed.

Lemma plan_api_config_fields (msgs : list JsValue) (chosen effort : JsValue) :
  let req := plan_api_config msgs chosen effort in
  messages req = msgs /\ model req = chosen /\
  temperature req = None /\ max_tokens req = None /\
  response_format req = Some response_format_text.
Proof.
  unfold plan_api_config. destruct (to_boolean effort); simpl; repeat split.
Qed.

Lemma issued_after_create (req : ApiRequest) (st : St) (m : M Envelope) :
  m st = after_create req st -> issued m st = [req].
Proof.
  intros H. apply (after_create_issued Envelope m req st (fst (after_create req st))).
  rewrite H. apply surjective_pairing.
Qed.

Lemma chat_issued (request : CallToolRequest) (props : JsObject) (st : St) :
  name request = "openai_chat" ->
  arguments request = Some props ->
  issued (call_tool request) st =
    if includes SUPPORTED_MODELS (own props "model") then
      match call_map (own props "messages") "rawMessages.map" chat_translate with
      | Ok msgs => [chat_api_config msgs (own props "model")]
      | Raise _ => []
      end
    else [].
Proof.
  intros Hn Ha. pose proof (chat_run request props st Hn Ha) as R.
  destruct (includes SUPPORTED_MODELS (own props "model")).
  - destruct (call_map (own props "messages") "rawMessages.map" chat_translate).
    + apply issued_after_create, R.
    + apply (issued_none _ _ _ _ R).
  - apply (issued_none _ _ _ _ R).
Qed.

Lemma plan_issued (request : CallToolRequest) (props : JsObject) (st : St) :
  name request = "openai_plan" ->
  arguments request = Some props ->
  let chosen := default_to (own props "model") (JStr "o1-2024-12-17") in
  issued (call_tool request) st =
    if includes PLAN_MODELS chosen then
      match call_map (own props "messages") "rawMessages.map" plan_translate with
      | Ok msgs =>
          [plan_api_config msgs chosen
             (default_to (own props "reasoning_effort") (JStr DEFAULT_REASONING_EFFORT))]
      | Raise _ => []
      end
    else [].
Proof.
  intros Hn Ha chosen. pose proof (plan_run request props st Hn Ha) as R.
  cbv zeta in R. fold chosen in R.
  destruct (includes PLAN_MODELS chosen).
  - destruct (call_map (own props "messages") "rawMessages.map" plan_translate).
    + apply issued_after_create, R.
    + apply (issued_none _ _ _ _ R).
  - apply (issued_none _ _ _ _ R).
Qed.

(** A handler that issued [req] returns what the downstream answer makes
    of it. *)
Lemma handler_reaches_create (request : CallToolRequest) (st : St) (req : ApiRequest) :
  name request = "openai_chat" \/ name request = "openai_plan" ->
  In req (issued (call_tool request) st) ->
  call_tool request st = after_create req st.
Proof.
  intros Hn Hin. destruct (arguments request) as [props|] eqn:Ha.
  - destruct Hn as [Hn|Hn].
    + rewrite (chat_issued request props st Hn Ha) in Hin.
      rewrite (chat_run request props st Hn Ha).
      destruct (includes SUPPORTED_MODELS (own props "model")); [|destruct Hin].
      destruct (call_map (own props "messages") "rawMessages.map" chat_translate);
        [|destruct Hin].
      destruct Hin as [<-|[]]. reflexivity.
    + rewrite (plan_issued request props st Hn Ha) in Hin.
      rewrite (plan_run request props st Hn Ha). cbv zeta in *.
      destruct (includes PLAN_MODELS _); [|destruct Hin].
      destruct (call_map (own props "messages") "rawMessages.map" plan_translate);
        [|destruct Hin].
      destruct Hin as [<-|[]]. reflexivity.
  - rewrite (issued_none _ _ _ _ (missing_arguments_run request st Hn Ha)) in Hin.
    destruct Hin.
Qed.

Lemma str_eq_true (v : JsValue) (lit : string) : str_eq v lit = true -> v = JStr lit.
Proof.
  destruct v; simpl; try discriminate. intros H. apply String.eqb_eq in H. congruence.
Qed.

Lemma includes_false (xs : list string) (v : JsValue) :
  (forall m, In m xs -> v <> JStr m) -> includes xs v = false.
Proof.
  intros H. unfold includes. destruct (existsb (str_eq v) xs) eqn:E; [|reflexivity].
  apply existsb_exists in E. destruct E as [m [Hin Hm]].
  apply str_eq_true in Hm. destruct (H m Hin Hm).
Qed.

Lemma includes_true (xs : list string) (m : string) :
  In m xs -> includes xs (JStr m) = true.
Proof.
  intros H. unfold includes. apply existsb_exists. exists m. split; [assumption|].
  simpl. apply String.eqb_refl.
Qed.

(** * The claims *)

(** C1: in an [openai_plan] call, an input message whose role is
    [developer] is translated to the message whose content is
    [DEFAULT_DEVELOPER_CONTENT], whatever content the caller supplied:
    the translator returns that message, and every request the handler
    passes downstream carries it at the position of the input message. *)
Theorem plan_developer_content_fixed
    (request : CallToolRequest) (st : St) (props : JsObject)
    (items : list JsValue) (i : nat) (msg : JsValue) :
  name request = "openai_plan" ->
  arguments request = Some props ->
  own props "messages" = JArr items ->
  nth_error items i = Some msg ->
  get_prop msg "role" = Ok (JStr "developer") ->
  plan_translate msg =
    Ok (JObj [("role", JStr "developer"); ("content", DEFAULT_DEVELOPER_CONTENT)]) /\
  forall req, In req (issued (call_tool request) st) ->
    nth_error (messages req) i =
      Some (JObj [("role", JStr "developer"); ("content", DEFAULT_DEVELOPER_CONTENT)]).
Proof.
  intros Hn Ha Hm Hi Hr.
  assert (T : plan_translate msg =
              Ok (JObj [("role", JStr "developer");
                        ("content", DEFAULT_DEVELOPER_CONTENT)])).
  { unfold plan_translate. rewrite Hr. reflexivity. }
  split; [exact T|].
  intros req Hin. rewrite (plan_issued request props st Hn Ha) in Hin. cbv zeta in Hin.
  destruct (includes PLAN_MODELS _); [|destruct Hin].
  rewrite Hm in Hin. unfold call_map in Hin.
  destruct (mapM plan_translate items) as [msgs|e] eqn:E; [|destruct Hin].
  destruct Hin as [<-|[]].
  destruct (plan_api_config_fields msgs
              (default_to (own props "model") (JStr "o1-2024-12-17"))
              (default_to (own props "reasoning_effort") (JStr DEFAULT_REASONING_EFFORT)))
    as [-> _].
  destruct (mapM_nth_error _ _ _ _ _ E _ _ Hi) as [y [Hy Hn']].
  rewrite T in Hy. inversion Hy; subst y. exact Hn'.
Qed.

(** C2: an [openai_plan] call that supplies a model other than
    o1-preview, o1-mini and o1-2024-12-17 returns the error envelope
    (isError true, text starting with "OpenAI API error: ") and issues no
    downstream call: state and call log are unchanged. *)
Theorem plan_rejects_other_models
    (request : CallToolRequest) (st : St) (props : JsObject) :
  name request = "openai_plan" ->
  arguments request = Some props ->
  own props "model" <> JUndefined ->
  (forall m, In m ["o1-preview"; "o1-mini"; "o1-2024-12-17"] ->
             own props "model" <> JStr m) ->
  (exists detail,
      call_tool request st =
        (Ok {| content := [{| type := "text";
                              text := "OpenAI API error: " ++ detail |}];
               isError := Some true |}, st)) /\
  issued (call_tool request) st = [].
Proof.
  intros Hn Ha Hu Hm.
  assert (D : default_to (own props "model") (JStr "o1-2024-12-17") = own props "model").
  { destruct (own props "model"); try reflexivity. destruct (Hu eq_refl). }
  pose proof (plan_run request props st Hn Ha) as R. cbv zeta in R. rewrite D in R.
  rewrite (includes_false PLAN_MODELS _ Hm) in R.
  split.
  - eexists. rewrite R. unfold error_envelope. reflexivity.
  - apply (issued_none _ _ _ _ R).
Qed.

(** C3 (the code does not do this): evaluated on an [openai_chat] call
    without a model, the handler does not fall back to
    [DEFAULT_CHAT_MODEL]: it returns the error envelope of the failed
    validation and issues no downstream call, while the same call with
    [model: "gpt-4o"] written out reaches the client with that model. *)
Theorem chat_default_model_not_applied (st : St) :
  let messages := JArr [JObj [("role", JStr "user"); ("content", JStr "hi")]] in
  let omitted := {| name := "openai_chat";
                    arguments := Some [("messages", messages)] |} in
  let supplied := {| name := "openai_chat";
                     arguments := Some [("messages", messages);
                                        ("model", JStr DEFAULT_CHAT_MODEL)] |} in
  call_tool omitted st =
    (Ok {| content :=
             [{| type := "text";
                 text := "OpenAI API error: Unsupported model: undefined. Must be one of: gpt-4o, gpt-4o-mini, o1-preview, o1-mini, o1, o3-mini" |}];
           isError := Some true |}, st) /\
  issued (call_tool omitted) st = [] /\
  issued (call_tool supplied) st <> issued (call_tool omitted) st /\
  Forall (fun req => model req = JStr "gpt-4o") (issued (call_tool supplied) st).
Proof.
  intros messages omitted supplied.
  assert (R : call_tool omitted st =
              (Ok (error_envelope
                     (Error "Unsupported model: undefined. Must be one of: gpt-4o, gpt-4o-mini, o1-preview, o1-mini, o1, o3-mini")),
               st)) by reflexivity.
  assert (I : issued (call_tool supplied) st =
              [chat_api_config
                 [JObj [("role", JStr "user"); ("content", JStr "hi")]]
                 (JStr "gpt-4o")]).
  { rewrite (chat_issued supplied _ st eq_refl eq_refl). reflexivity. }
  rewrite (issued_none _ _ _ _ R), I.
  split; [exact R|]. split; [reflexivity|]. split; [discriminate|].
  constructor; [reflexivity | constructor].
Qed.

(** C4: for both tools, whatever the arguments and the state, an
    exception raised anywhere in the [try] block (destructuring of the
    arguments, model validation, message translation, the downstream
    call, reading the completion) is turned into the envelope
    [{content: [{type: "text", text: "OpenAI API error: <message>"}],
    isError: true}]; the handler itself never raises. *)
Theorem handler_errors_become_envelopes (args : option JsObject) (st : St) :
  caught (openai_chat_try args)
         (call_tool {| name := "openai_chat"; arguments := args |}) st /\
  caught (openai_plan_try args)
         (call_tool {| name := "openai_plan"; arguments := args |}) st /\
  (exists envelope st',
      call_tool {| name := "openai_chat"; arguments := args |} st
      = (Ok envelope, st')) /\
  (exists envelope st',
      call_tool {| name := "openai_plan"; arguments := args |} st
      = (Ok envelope, st')).
Proof.
  change (call_tool {| name := "openai_chat"; arguments := args |})
    with (try_catch (openai_chat_try args) (fun error => ret (error_envelope error))).
  change (call_tool {| name := "openai_plan"; arguments := args |})
    with (try_catch (openai_plan_try args) (fun error => ret (error_envelope error))).
  unfold caught, try_catch, ret, error_envelope.
  split; [|split; [|split]].
  - destruct (openai_chat_try args st) as [[envelope|error] st']; reflexivity.
  - destruct (openai_plan_try args st) as [[envelope|error] st']; reflexivity.
  - destruct (openai_chat_try args st) as [[envelope|error] st'];
      eexists; eexists; reflexivity.
  - destruct (openai_plan_try args st) as [[envelope|error] st'];
      eexists; eexists; reflexivity.
Qed.

(** Each stage of the [try] block does raise on some input, and the
    exception reaches the envelope. *)
Lemma translation_error_enveloped (request : CallToolRequest) (props : JsObject) (st : St) :
  name request = "openai_chat" ->
  arguments request = Some props ->
  (exists m, In m SUPPORTED_MODELS /\ own props "model" = JStr m) ->
  own props "messages" = JUndefined ->
  call_tool request st =
    (Ok (error_envelope (TypeError (PropertyOfNullish JUndefined "map"))), st).
Proof.
  intros Hn Ha [m [Hin Hm]] Hmsgs. rewrite (chat_run request props st Hn Ha).
  rewrite Hm, (includes_true _ _ Hin), Hmsgs. reflexivity.
Qed.

Lemma downstream_error_enveloped
    (request : CallToolRequest) (st : St) (req : ApiRequest) (e : Exn) (w : World) :
  name request = "openai_chat" \/ name request = "openai_plan" ->
  In req (issued (call_tool request) st) ->
  create req (world st) = (Raise e, w) ->
  call_tool request st =
    (Ok (error_envelope e), {| world := w; calls := (calls st ++ [req])%list |}).
Proof.
  intros Hn Hin Hc. rewrite (handler_reaches_create request st req Hn Hin).
  unfold after_create. rewrite Hc. reflexivity.
Qed.

(** C5: every request the [openai_plan] handler passes downstream has
    [response_format] equal to [{type: "text"}], whatever the caller put
    in the arguments, and has no [temperature] and no [max_tokens]
    field. *)
Theorem plan_request_format_forced
    (request : CallToolRequest) (st : St) (req : ApiRequest) :
  name request = "openai_plan" ->
  In req (issued (call_tool request) st) ->
  response_format req = Some (JObj [("type", JStr "text")]) /\
  temperature req = None /\
  max_tokens req = None.
Proof.
  intros Hn Hin. destruct (arguments request) as [props|] eqn:Ha.
  - rewrite (plan_issued request props st Hn Ha) in Hin. cbv zeta in Hin.
    destruct (includes PLAN_MODELS _); [|destruct Hin].
    destruct (call_map (own props "messages") "rawMessages.map" plan_translate)
      as [msgs|e]; [|destruct Hin].
    destruct Hin as [<-|[]].
    destruct (plan_api_config_fields msgs
                (default_to (own props "model") (JStr "o1-2024-12-17"))
                (default_to (own props "reasoning_effort")
                            (JStr DEFAULT_REASONING_EFFORT)))
      as [_ [_ [Ht [Hx Hf]]]].
    repeat split; assumption.
  - rewrite (issued_none _ _ _ _
               (missing_arguments_run request st (or_intror Hn) Ha)) in Hin.
    destruct Hin.
Qed.

Lemma chat_translate_plain (msg : JsValue) :
  plain_message msg ->
  exists role content,
    get_prop msg "role" = Ok role /\ get_prop msg "content" = Ok content /\
    chat_translate msg = Ok (message_obj role content).
Proof.
  intros [role [content [Hin [Hr Hc]]]].
  exists (JStr role), (JStr content). repeat split; try assumption.
  assert (D : str_eq (JStr role) "developer" = false).
  { simpl in Hin. destruct Hin as [<-|[<-|[<-|[]]]]; reflexivity. }
  unfold chat_translate. rewrite Hr. unfold rbind at 1. rewrite D, Hc. reflexivity.
Qed.

Lemma mapM_chat_plain (items : list JsValue) :
  Forall plain_message items ->
  exists out,
    mapM chat_translate items = Ok out /\
    Forall2 (fun msg o => exists role content,
                 get_prop msg "role" = Ok role /\
                 get_prop msg "content" = Ok content /\
                 o = message_obj role content) items out.
Proof.
  induction 1 as [|msg rest Hmsg _ [out [IH1 IH2]]].
  - exists []. split; [reflexivity | constructor].
  - destruct (chat_translate_plain msg Hmsg) as [role [content [Hr [Hc Ht]]]].
    exists (message_obj role content :: out). split.
    + simpl. rewrite Ht. simpl. rewrite IH1. reflexivity.
    + constructor; [|assumption]. exists role, content. repeat split; assumption.
Qed.

(** C6: an [openai_chat] message list made of system, user and assistant
    messages with string content is translated to a list of the same
    length whose i-th message has the role and the content of the i-th
    input message (and which is the input list itself when the input
    messages are exactly role/content objects); with a supported model
    that list is what the one downstream request carries. *)
Theorem chat_plain_messages_unchanged
    (request : CallToolRequest) (st : St) (props : JsObject) (items : list JsValue) :
  name request = "openai_chat" ->
  arguments request = Some props ->
  own props "messages" = JArr items ->
  Forall plain_message items ->
  exists out,
    call_map (JArr items) "rawMessages.map" chat_translate = Ok out /\
    length out = length items /\
    (forall i msg, nth_error items i = Some msg ->
       exists o, nth_error out i = Some o /\
                 get_prop o "role" = get_prop msg "role" /\
                 get_prop o "content" = get_prop msg "content") /\
    (Forall (fun msg => exists role content,
                 msg = JObj [("role", role); ("content", content)]) items ->
     out = items) /\
    (forall req, In req (issued (call_tool request) st) -> messages req = out) /\
    (forall m, In m SUPPORTED_MODELS -> own props "model" = JStr m ->
       exists req, issued (call_tool request) st = [req] /\ messages req = out).
Proof.
  intros Hn Ha Hm Hp.
  destruct (mapM_chat_plain items Hp) as [out [E F]].
  exists out. simpl call_map.
  split; [exact E|]. split; [exact (mapM_length _ _ _ _ _ E)|].
  split; [|split; [|split]].
  - clear E Hm Hp. induction F as [|msg o items out [role [content [Hr [Hc ->]]]] F IH];
      intros i m Hi.
    + destruct i; discriminate.
    + destruct i as [|i]; simpl in Hi.
      * inversion Hi; subst m. exists (message_obj role content).
        split; [reflexivity|]. rewrite Hr, Hc. split; reflexivity.
      * apply (IH i m Hi).
  - clear E Hm Hp. induction F as [|msg o items out [role [content [Hr [Hc ->]]]] F IH];
      intros Hs; [reflexivity|].
    inversion Hs as [|? ? [r [c Hmsg]] Hrest]; subst.
    simpl in Hr, Hc. inversion Hr; inversion Hc; subst.
    unfold message_obj. f_equal. apply IH, Hrest.
  - intros req Hin. rewrite (chat_issued request props st Hn Ha), Hm in Hin.
    simpl call_map in Hin. rewrite E in Hin.
    destruct (includes SUPPORTED_MODELS (own props "model")); [|destruct Hin].
    destruct Hin as [<-|[]]. reflexivity.
  - intros m Hin Hmodel. rewrite (chat_issued request props st Hn Ha), Hm, Hmodel.
    rewrite (includes_true _ _ Hin). simpl call_map. rewrite E.
    eexists. split; reflexivity.
Qed.

Lemma mapM_content_part (parts : list JsValue) :
  Forall (fun part => nullish part = false) parts ->
  exists out, mapM content_part parts = Ok out.
Proof.
  induction 1 as [|part rest Hp _ [out IH]].
  - exists []. reflexivity.
  - simpl. rewrite IH.
    destruct part; try discriminate; eexists; reflexivity.
Qed.

(** C7, as amended: in the [openai_plan] translator a message whose role
    and content match none of the handled combinations, and whose content,
    when it is an array, holds no null part, becomes a user message whose
    content is the original content if that is a string and the literal
    'Invalid content format' otherwise.  Without the condition on the
    parts the statement fails: lines 300-303 map the parts of any array
    content before the role is looked at, and reading [part.type] of a
    null part raises. *)
Theorem plan_fallback_translation (msg role content : JsValue) :
  get_prop msg "role" = Ok role ->
  get_prop msg "content" = Ok content ->
  plan_handled role content = false ->
  (forall parts, content = JArr parts ->
                 Forall (fun part => nullish part = false) parts) ->
  plan_translate msg =
    Ok (JObj [("role", JStr "user");
              ("content", match content with
                          | JStr s => JStr s
                          | _ => JStr "Invalid content format"
                          end)]).
Proof.
  intros Hr Hc Hh Hparts. unfold plan_translate. rewrite Hr. unfold rbind at 1.
  unfold plan_handled in Hh.
  apply orb_false_iff in Hh. destruct Hh as [Hh Harr].
  apply orb_false_iff in Hh. destruct Hh as [Hdev Hstr].
  rewrite Hdev, Hc. unfold rbind at 1.
  destruct content as [| |b|n|s|parts|props]; simpl in *;
    try reflexivity.
  - apply orb_false_iff in Hstr. destruct Hstr as [Hstr Has].
    apply orb_false_iff in Hstr. destruct Hstr as [Hsys Hus].
    rewrite Hsys, Hus, Has. reflexivity.
  - destruct (mapM_content_part parts (Hparts parts eq_refl)) as [out ->].
    apply orb_false_iff in Harr. destruct Harr as [Hus Has].
    simpl. rewrite Hus, Has. reflexivity.
Qed.


(** C9: a CallTool request whose name is neither [openai_chat] nor
    [openai_plan] makes the dispatcher raise
    [McpError(ErrorCode.MethodNotFound, "Unknown tool: <name>")]; no
    envelope is produced, the state is untouched and no downstream call
    is issued. *)
Theorem unknown_tool_method_not_found (request : CallToolRequest) (st : St) :
  name request <> "openai_chat" ->
  name request <> "openai_plan" ->
  call_tool request st =
    (Raise (McpError MethodNotFound ("Unknown tool: " ++ name request)), st) /\
  issued (call_tool request) st = [].
Proof.
  intros Hc Hp.
  assert (R : call_tool request st =
              (Raise (McpError MethodNotFound ("Unknown tool: " ++ name request)), st)).
  { unfold call_tool.
    apply String.eqb_neq in Hc. apply String.eqb_neq in Hp.
    rewrite Hc, Hp. reflexivity. }
  split; [exact R | apply (issued_none _ _ _ _ R)].
Qed.

(** C10: an [openai_chat] call that omits the model fails validation
    ([SUPPORTED_MODELS.includes(undefined)] is false): it returns the
    error envelope and issues no downstream call, so gpt-4o is never
    applied.  In [openai_plan] an omitted model becomes 'o1-2024-12-17',
    which passes validation: when the messages translate, the handler
    issues one request, with that model. *)
Theorem chat_omitted_model_rejected
    (chat plan : CallToolRequest) (props : JsObject) (st : St) :
  name chat = "openai_chat" ->
  name plan = "openai_plan" ->
  arguments chat = Some props ->
  arguments plan = Some props ->
  own props "model" = JUndefined ->
  includes SUPPORTED_MODELS (own props "model") = false /\
  call_tool chat st =
    (Ok {| content :=
             [{| type := "text";
                 text := "OpenAI API error: Unsupported model: undefined. Must be one of: gpt-4o, gpt-4o-mini, o1-preview, o1-mini, o1, o3-mini" |}];
           isError := Some true |}, st) /\
  issued (call_tool chat) st = [] /\
  includes PLAN_MODELS (default_to (own props "model") (JStr "o1-2024-12-17")) = true /\
  (forall msgs,
      call_map (own props "messages") "rawMessages.map" plan_translate = Ok msgs ->
      exists req,
        issued (call_tool plan) st = [req] /\
        model req = JStr "o1-2024-12-17" /\ messages req = msgs).
Proof.
  intros Hc Hp Hac Hap Hm.
  assert (R : call_tool chat st =
              (Ok (error_envelope
                     (Error "Unsupported model: undefined. Must be one of: gpt-4o, gpt-4o-mini, o1-preview, o1-mini, o1, o3-mini")),
               st)).
  { rewrite (chat_run chat props st Hc Hac), Hm. reflexivity. }
  rewrite Hm.
  split; [reflexivity|]. split; [exact R|].
  split; [apply (issued_none _ _ _ _ R)|]. split; [reflexivity|].
  intros msgs Ht. rewrite (plan_issued plan props st Hp Hap). cbv zeta.
  rewrite Hm, Ht. simpl default_to.
  change (includes PLAN_MODELS (JStr "o1-2024-12-17")) with true. cbv iota.
  eexists. split; [reflexivity|].
  destruct (plan_api_config_fields msgs (JStr "o1-2024-12-17")
              (default_to (own props "reasoning_effort")
                          (JStr DEFAULT_REASONING_EFFORT)))
    as [Hmsgs [Hmodel _]].
  split; assumption.
Qed.

(** * Further properties of the handlers *)

Lemma handler_outcome (request : CallToolRequest) (st : St) :
  name request = "openai_chat" \/ name request = "openai_plan" ->
  (exists e, call_tool request st = (Ok (error_envelope e), st)) \/
  (exists req, call_tool request st = after_create req st).
Proof.
  intros Hn. destruct (arguments request) as [props|] eqn:Ha.
  - destruct Hn as [Hn|Hn].
    + rewrite (chat_run request props st Hn Ha).
      destruct (includes SUPPORTED_MODELS (own props "model")).
      * destruct (call_map (own props "messages") "rawMessages.map" chat_translate).
        -- right. eexists. reflexivity.
        -- left. eexists. reflexivity.
      * left. eexists. reflexivity.
    + rewrite (plan_run request props st Hn Ha). cbv zeta.
      destruct (includes PLAN_MODELS _).
      * destruct (call_map (own props "messages") "rawMessages.map" plan_translate).
        -- right. eexists. reflexivity.
        -- left. eexists. reflexivity.
      * left. eexists. reflexivity.
  - left. eexists. apply (missing_arguments_run request st Hn Ha).
Qed.

Lemma includes_true_inv (xs : list string) (v : JsValue) :
  includes xs v = true -> exists m, In m xs /\ v = JStr m.
Proof.
  unfold includes. intros H. apply existsb_exists in H.
  destruct H as [m [Hin Hm]]. exists m. split; [assumption | apply str_eq_true, Hm].
Qed.

Lemma name_cases (request : CallToolRequest) :
  name request = "openai_chat" \/ name request = "openai_plan" \/
  (name request <> "openai_chat" /\ name request <> "openai_plan").
Proof.
  destruct (String.eqb_spec (name request) "openai_chat") as [H|H]; [left; exact H|].
  destruct (String.eqb_spec (name request) "openai_plan") as [H'|H'];
    [right; left; exact H' | right; right; split; assumption].
Qed.

(** X1: an [openai_chat] call whose model is not one of the six supported
    strings (a missing model included) returns the error envelope and
    issues no downstream call; for a string model the text names it and
    lists the supported models. *)
Theorem chat_rejects_other_models
    (request : CallToolRequest) (st : St) (props : JsObject) :
  name request = "openai_chat" ->
  arguments request = Some props ->
  (forall m, In m ["gpt-4o"; "gpt-4o-mini"; "o1-preview"; "o1-mini"; "o1"; "o3-mini"] ->
             own props "model" <> JStr m) ->
  (exists detail,
      call_tool request st =
        (Ok {| content := [{| type := "text";
                              text := "OpenAI API error: " ++ detail |}];
               isError := Some true |}, st)) /\
  issued (call_tool request) st = [] /\
  (forall m, own props "model" = JStr m ->
     call_tool request st =
       (Ok {| content :=
                [{| type := "text";
                    text := "OpenAI API error: Unsupported model: " ++ m
                            ++ ". Must be one of: gpt-4o, gpt-4o-mini, o1-preview, o1-mini, o1, o3-mini" |}];
              isError := Some true |}, st)).
Proof.
  intros Hn Ha Hm.
  pose proof (chat_run request props st Hn Ha) as R.
  rewrite (includes_false SUPPORTED_MODELS _ Hm) in R.
  split; [|split].
  - eexists. rewrite R. unfold error_envelope. reflexivity.
  - apply (issued_none _ _ _ _ R).
  - intros m E. rewrite R, E. reflexivity.
Qed.

(** X2: for both tools, when the downstream call returns a completion
    whose first choice carries a non-empty text, the handler returns that
    text unchanged in a success envelope, and the state records the call. *)
Theorem completion_text_returned
    (request : CallToolRequest) (st : St) (req : ApiRequest)
    (completion : ChatCompletion) (w : World) (t : string) :
  name request = "openai_chat" \/ name request = "openai_plan" ->
  In req (issued (call_tool request) st) ->
  create req (world st) = (Ok completion, w) ->
  first_choice_content completion = Some t ->
  t <> EmptyString ->
  call_tool request st =
    (Ok {| content := [{| type := "text"; text := t |}]; isError := None |},
     {| world := w; calls := (calls st ++ [req])%list |}).
Proof.
  intros Hn Hin Hc Ht Hne. rewrite (handler_reaches_create request st req Hn Hin).
  unfold after_create. rewrite Hc. unfold response_text, success_envelope. rewrite Ht.
  destruct t; [destruct (Hne eq_refl) | reflexivity].
Qed.

(** X3: for both tools, when the downstream call rejects, the handler
    returns the error envelope carrying the rejection's message; the call
    was made once and is not retried. *)
Theorem downstream_rejection_reported
    (request : CallToolRequest) (st : St) (req : ApiRequest) (e : Exn) (w : World) :
  name request = "openai_chat" \/ name request = "openai_plan" ->
  In req (issued (call_tool request) st) ->
  create req (world st) = (Raise e, w) ->
  call_tool request st =
    (Ok {| content := [{| type := "text";
                          text := "OpenAI API error: " ++ message_of e |}];
           isError := Some true |},
     {| world := w; calls := (calls st ++ [req])%list |}) /\
  issued (call_tool request) st = [req].
Proof.
  intros Hn Hin Hc.
  pose proof (handler_reaches_create request st req Hn Hin) as R.
  split.
  - rewrite R. unfold after_create. rewrite Hc. reflexivity.
  - apply issued_after_create, R.
Qed.

(** X4: whatever the request, the dispatcher makes at most one downstream
    call.  Either it makes none and leaves the state as it was, or it makes
    exactly one, appended to the call log, and the world is the one that
    call left. *)
Theorem at_most_one_downstream_call (request : CallToolRequest) (st : St) :
  (issued (call_tool request) st = [] /\ snd (call_tool request st) = st) \/
  (exists req,
      issued (call_tool request) st = [req] /\
      snd (call_tool request st) =
        {| world := snd (create req (world st));
           calls := (calls st ++ [req])%list |}).
Proof.
  destruct (name_cases request) as [Hn|[Hn|[Hc Hp]]].
  - destruct (handler_outcome request st (or_introl Hn)) as [[e R]|[req R]].
    + left. split; [apply (issued_none _ _ _ _ R) | rewrite R; reflexivity].
    + right. exists req. split; [apply issued_after_create, R|].
      rewrite R. unfold after_create. destruct (create req (world st)). reflexivity.
  - destruct (handler_outcome request st (or_intror Hn)) as [[e R]|[req R]].
    + left. split; [apply (issued_none _ _ _ _ R) | rewrite R; reflexivity].
    + right. exists req. split; [apply issued_after_create, R|].
      rewrite R. unfold after_create. destruct (create req (world st)). reflexivity.
  - left. apply String.eqb_neq in Hc. apply String.eqb_neq in Hp.
    assert (R : call_tool request st =
                (Raise (McpError MethodNotFound ("Unknown tool: " ++ name request)), st)).
    { unfold call_tool. rewrite Hc, Hp. reflexivity. }
    split; [apply (issued_none _ _ _ _ R) | rewrite R; reflexivity].
Qed.

Lemma response_text_nonempty (completion : ChatCompletion) :
  response_text completion <> EmptyString.
Proof.
  unfold response_text, or_else.
  destruct (first_choice_content completion) as [[|a s]|]; discriminate.
Qed.

(** X5: every envelope the dispatcher returns holds exactly one content
    item, of type "text", whose text is not empty; [isError] is either
    absent, and the text is the text of a completion the client returned,
    or [true], and the text starts with "OpenAI API error: ".  It is never
    [false]. *)
Theorem envelope_shape
    (request : CallToolRequest) (st st' : St) (envelope : Envelope) :
  call_tool request st = (Ok envelope, st') ->
  exists t,
    content envelope = [{| type := "text"; text := t |}] /\
    t <> EmptyString /\
    ((isError envelope = None /\
      exists req completion w,
        create req (world st) = (Ok completion, w) /\ t = response_text completion) \/
     (isError envelope = Some true /\
      exists e, t = "OpenAI API error: " ++ message_of e)).
Proof.
  intros H. destruct (name_cases request) as [Hn|[Hn|[Hc Hp]]].
  1,2: (assert (Hn' : name request = "openai_chat" \/ name request = "openai_plan")
          by (first [left; exact Hn | right; exact Hn]);
        destruct (handler_outcome request st Hn') as [[e R]|[req R]];
        rewrite R in H;
        [ inversion H; subst; eexists; split; [reflexivity|]; split; [discriminate|];
          right; split; [reflexivity | exists e; reflexivity]
        | unfold after_create in H;
          destruct (create req (world st)) as [[completion|e] w] eqn:C;
          inversion H; subst;
          [ eexists; split; [reflexivity|]; split; [apply response_text_nonempty|];
            left; split; [reflexivity | exists req, completion, w; split; [exact C | reflexivity]]
          | eexists; split; [reflexivity|]; split; [discriminate|];
            right; split; [reflexivity | exists e; reflexivity] ] ]).
  apply String.eqb_neq in Hc. apply String.eqb_neq in Hp.
  unfold call_tool in H. rewrite Hc, Hp in H. discriminate.
Qed.

(** X6: every request the [openai_chat] handler passes downstream has
    temperature 0.7 and max_tokens 2000, no [reasoning_effort] and no
    [response_format], and its model is one of the six supported strings. *)
Theorem chat_request_shape
    (request : CallToolRequest) (st : St) (req : ApiRequest) :
  name request = "openai_chat" ->
  In req (issued (call_tool request) st) ->
  temperature req = Some (7 # 10) /\
  max_tokens req = Some 2000%Z /\
  reasoning_effort req = None /\
  response_format req = None /\
  exists m,
    In m ["gpt-4o"; "gpt-4o-mini"; "o1-preview"; "o1-mini"; "o1"; "o3-mini"] /\
    model req = JStr m.
Proof.
  intros Hn Hin. destruct (arguments request) as [props|] eqn:Ha.
  - rewrite (chat_issued request props st Hn Ha) in Hin.
    destruct (includes SUPPORTED_MODELS (own props "model")) eqn:I; [|destruct Hin].
    destruct (call_map (own props "messages") "rawMessages.map" chat_translate);
      [|destruct Hin].
    destruct Hin as [<-|[]]. repeat split.
    apply includes_true_inv in I. exact I.
  - rewrite (issued_none _ _ _ _
               (missing_arguments_run request st (or_introl Hn) Ha)) in Hin.
    destruct Hin.
Qed.

(** X7: the model of every request the [openai_plan] handler passes
    downstream is one of o1-preview, o1-mini and o1-2024-12-17; no other
    model, 'o1' and 'o3-mini' included, is ever sent. *)
Theorem plan_request_model_validated
    (request : CallToolRequest) (st : St) (req : ApiRequest) :
  name request = "openai_plan" ->
  In req (issued (call_tool request) st) ->
  exists m, In m ["o1-preview"; "o1-mini"; "o1-2024-12-17"] /\ model req = JStr m.
Proof.
  intros Hn Hin. destruct (arguments request) as [props|] eqn:Ha.
  - rewrite (plan_issued request props st Hn Ha) in Hin. cbv zeta in Hin.
    destruct (includes PLAN_MODELS _) eqn:I; [|destruct Hin].
    destruct (call_map (own props "messages") "rawMessages.map" plan_translate)
      as [msgs|e]; [|destruct Hin].
    destruct Hin as [<-|[]].
    destruct (plan_api_config_fields msgs
                (default_to (own props "model") (JStr "o1-2024-12-17"))
                (default_to (own props "reasoning_effort")
                            (JStr DEFAULT_REASONING_EFFORT)))
      as [_ [-> _]].
    apply includes_true_inv in I. exact I.
  - rewrite (issued_none _ _ _ _
               (missing_arguments_run request st (or_intror Hn) Ha)) in Hin.
    destruct Hin.
Qed.

(** X8: the [openai_plan] handler does not validate [reasoning_effort]:
    an omitted value becomes "low", any other truthy value is passed
    downstream as it is, and a falsy one (null, false, the empty string, a
    falsy number) leaves the field out of the request. *)
Theorem plan_reasoning_effort_passed
    (request : CallToolRequest) (st : St) (props : JsObject) (req : ApiRequest) :
  name request = "openai_plan" ->
  arguments request = Some props ->
  In req (issued (call_tool request) st) ->
  reasoning_effort req =
    match own props "reasoning_effort" with
    | JUndefined => Some (JStr "low")
    | supplied => if to_boolean supplied then Some supplied else None
    end.
Proof.
  intros Hn Ha Hin.
  rewrite (plan_issued request props st Hn Ha) in Hin. cbv zeta in Hin.
  destruct (includes PLAN_MODELS _); [|destruct Hin].
  destruct (call_map (own props "messages") "rawMessages.map" plan_translate)
    as [msgs|e]; [|destruct Hin].
  destruct Hin as [<-|[]]. unfold plan_api_config.
  destruct (own props "reasoning_effort") as [| |b|n|s|items|o]; simpl default_to;
    try reflexivity;
    match goal with |- context [to_boolean ?v] => destruct (to_boolean v) end;
    reflexivity.
Qed.

(** X9: for both tools, the messages of a request passed downstream are as
    many as the input messages: the translation neither drops nor adds a
    message. *)
Theorem translation_preserves_length
    (request : CallToolRequest) (st : St) (req : ApiRequest) :
  name request = "openai_chat" \/ name request = "openai_plan" ->
  In req (issued (call_tool request) st) ->
  exists props items,
    arguments request = Some props /\
    own props "messages" = JArr items /\
    length (messages req) = length items.
Proof.
  intros Hn Hin. destruct (arguments request) as [props|] eqn:Ha.
  - exists props. destruct Hn as [Hn|Hn].
    + rewrite (chat_issued request props st Hn Ha) in Hin.
      destruct (includes SUPPORTED_MODELS (own props "model")); [|destruct Hin].
      destruct (own props "messages") as [| |b|n|s|items|o]; try destruct Hin.
      exists items. simpl call_map in Hin.
      destruct (mapM chat_translate items) as [msgs|e] eqn:E; [|destruct Hin].
      destruct Hin as [<-|[]]. repeat split. apply (mapM_length _ _ _ _ _ E).
    + rewrite (plan_issued request props st Hn Ha) in Hin. cbv zeta in Hin.
      destruct (includes PLAN_MODELS _); [|destruct Hin].
      destruct (own props "messages") as [| |b|n|s|items|o]; try destruct Hin.
      exists items. simpl call_map in Hin.
      destruct (mapM plan_translate items) as [msgs|e] eqn:E; [|destruct Hin].
      destruct Hin as [<-|[]]. repeat split.
      destruct (plan_api_config_fields msgs
                  (default_to (own props "model") (JStr "o1-2024-12-17"))
                  (default_to (own props "reasoning_effort")
                              (JStr DEFAULT_REASONING_EFFORT)))
        as [-> _].
      apply (mapM_length _ _ _ _ _ E).
  - rewrite (issued_none _ _ _ _ (missing_arguments_run request st Hn Ha)) in Hin.
    destruct Hin.
Qed.

(** * Further properties of the translators *)

Lemma join_strings_ok (sep : string) (texts : list string) :
  js_join sep (map JStr texts) = Ok (String.concat sep texts).
Proof.
  unfold js_join. induction texts as [|t rest IH]; [reflexivity|].
  simpl join_with. destruct rest as [|t' rest]; [reflexivity|].
  simpl map in *. rewrite IH. reflexivity.
Qed.

Lemma mapM_forall2 (A B : Type) (f : A -> Res B) (l : list A) (out : list B) :
  Forall2 (fun x y => f x = Ok y) l out -> mapM f l = Ok out.
Proof.
  induction 1 as [|x y l out Hxy _ IH]; [reflexivity|].
  simpl. rewrite Hxy. simpl. rewrite IH. reflexivity.
Qed.

Lemma mapM_raises (A B : Type) (f : A -> Res B) (l : list A) (x : A) :
  In x l -> (exists e, f x = Raise e) -> exists e, mapM f l = Raise e.
Proof.
  induction l as [|a rest IH]; intros Hin Hx; [destruct Hin|].
  simpl. destruct (f a) as [y|e] eqn:Fa; [|exists e; reflexivity].
  destruct Hin as [->|Hin].
  - destruct Hx as [e He]. congruence.
  - destruct (IH Hin Hx) as [e He]. rewrite He. exists e. reflexivity.
Qed.

Lemma get_prop_total (v : JsValue) (prop : string) :
  nullish v = false -> get_prop v prop = Ok (prop_of v prop).
Proof. destruct v; simpl; intros H; try discriminate; reflexivity. Qed.

(** X10: on the chat path a developer message is sent as an assistant
    message: with string content the content is kept, and with an array of
    parts whose texts are strings the content is those texts joined by a
    line feed. *)
Theorem chat_developer_becomes_assistant (msg content : JsValue) :
  get_prop msg "role" = Ok (JStr "developer") ->
  get_prop msg "content" = Ok content ->
  (forall s, content = JStr s ->
     chat_translate msg =
       Ok (JObj [("role", JStr "assistant"); ("content", JStr s)])) /\
  (forall parts texts,
     content = JArr parts ->
     Forall2 (fun part t => get_prop part "text" = Ok (JStr t)) parts texts ->
     chat_translate msg =
       Ok (JObj [("role", JStr "assistant");
                 ("content", JStr (String.concat nl texts))])).
Proof.
  intros Hr Hc. split.
  - intros s ->. unfold chat_translate. rewrite Hr. unfold rbind at 1.
    change (str_eq (JStr "developer") "developer") with true. cbv iota.
    rewrite Hc. reflexivity.
  - intros parts texts -> F.
    assert (E : mapM (fun part => get_prop part "text") parts = Ok (map JStr texts)).
    { apply mapM_forall2. clear Hc. induction F; simpl; constructor; assumption. }
    unfold chat_translate. rewrite Hr. unfold rbind at 1.
    change (str_eq (JStr "developer") "developer") with true. cbv iota.
    rewrite Hc. unfold rbind at 1. simpl is_string. cbv iota. simpl call_map.
    rewrite E. unfold rbind at 2. rewrite join_strings_ok. reflexivity.
Qed.

(** X11: on the chat path only developer messages are rewritten.  Any
    other message, whatever its role (one outside system, user and
    assistant included) and whatever its content (an array of parts is not
    joined), goes downstream with its role and its content unchanged. *)
Theorem chat_passes_other_roles (msg role content : JsValue) :
  get_prop msg "role" = Ok role ->
  get_prop msg "content" = Ok content ->
  role <> JStr "developer" ->
  chat_translate msg = Ok (JObj [("role", role); ("content", content)]).
Proof.
  intros Hr Hc Hd. unfold chat_translate. rewrite Hr. unfold rbind at 1.
  destruct (str_eq role "developer") eqn:E.
  - apply str_eq_true in E. destruct (Hd E).
  - rewrite Hc. reflexivity.
Qed.

(** X12: the plan translator keeps a system, user or assistant message
    with string content as it is. *)
Theorem plan_keeps_string_messages (msg : JsValue) (role s : string) :
  In role ["system"; "user"; "assistant"] ->
  get_prop msg "role" = Ok (JStr role) ->
  get_prop msg "content" = Ok (JStr s) ->
  plan_translate msg = Ok (JObj [("role", JStr role); ("content", JStr s)]).
Proof.
  intros Hin Hr Hc. unfold plan_translate. rewrite Hr. unfold rbind at 1.
  simpl in Hin. destruct Hin as [<-|[<-|[<-|[]]]];
    simpl str_eq; cbv iota; rewrite Hc; reflexivity.
Qed.

Lemma mapM_content_part_total (parts : list JsValue) :
  Forall (fun part => nullish part = false) parts ->
  mapM content_part parts = Ok (map text_part_of parts).
Proof.
  intros F. apply mapM_pure.
  induction F as [|part rest Hp _ IH]; constructor; [|exact IH].
  unfold content_part, text_part_of.
  rewrite !(get_prop_total part _ Hp). reflexivity.
Qed.

(** X13: for a user or assistant message whose array content holds no
    null part, the plan translator keeps the content as an array with one
    part per input part, in order, each reduced to its [type] and [text]
    (any other key of a part is dropped, and [type] is not checked). *)
Theorem plan_keeps_parts (msg : JsValue) (role : string) (parts : list JsValue) :
  In role ["user"; "assistant"] ->
  get_prop msg "role" = Ok (JStr role) ->
  get_prop msg "content" = Ok (JArr parts) ->
  Forall (fun part => nullish part = false) parts ->
  plan_translate msg =
    Ok (JObj [("role", JStr role);
              ("content",
               JArr (map (fun part => JObj [("type", prop_of part "type");
                                            ("text", prop_of part "text")]) parts))]).
Proof.
  intros Hin Hr Hc F. unfold plan_translate. rewrite Hr. unfold rbind at 1.
  pose proof (mapM_content_part_total parts F) as E. unfold text_part_of in E.
  simpl in Hin. destruct Hin as [<-|[<-|[]]];
    simpl str_eq; cbv iota; rewrite Hc; unfold rbind at 1; simpl is_string;
    simpl is_array; cbv iota; simpl call_map; rewrite E; reflexivity.
Qed.

(** X14: every message the plan translator produces has one of the four
    roles developer, system, user and assistant, whatever role the input
    message carried. *)
Theorem plan_translate_roles (msg out : JsValue) :
  plan_translate msg = Ok out ->
  exists role content,
    out = JObj [("role", JStr role); ("content", content)] /\
    In role ["developer"; "system"; "user"; "assistant"].
Proof.
  unfold plan_translate. destruct (get_prop msg "role") as [role|e]; [|discriminate].
  unfold rbind at 1.
  destruct (str_eq role "developer").
  { intros H. inversion H. eexists _, _. split; [reflexivity | simpl; auto]. }
  destruct (get_prop msg "content") as [content|e]; [|discriminate].
  unfold rbind at 1. unfold plan_fallback, message_obj.
  destruct (is_string content).
  - destruct (str_eq role "system");
      [|destruct (str_eq role "user"); [|destruct (str_eq role "assistant")]];
      intros H; inversion H; eexists _, _; (split; [reflexivity | simpl; auto]).
  - destruct (is_array content).
    + destruct (call_map content "msg.content.map" content_part) as [ps|e];
        [|discriminate].
      unfold rbind.
      destruct (str_eq role "user"); [|destruct (str_eq role "assistant")];
        intros H; inversion H; eexists _, _; (split; [reflexivity | simpl; auto]).
    + intros H; inversion H; eexists _, _; (split; [reflexivity | simpl; auto]).
Qed.

Lemma content_part_fixed (parts out : list JsValue) :
  mapM content_part parts = Ok out -> mapM content_part out = Ok out.
Proof.
  revert out. induction parts as [|part rest IH]; simpl; intros out H.
  - inversion H. reflexivity.
  - destruct (content_part part) as [p|e] eqn:P; [|discriminate].
    unfold rbind in H at 1.
    destruct (mapM content_part rest) as [ps|e]; [|discriminate].
    simpl in H. inversion H; subst out. simpl.
    assert (Q : content_part p = Ok p).
    { unfold content_part in P.
      destruct (get_prop part "type") as [ty|e]; [|discriminate].
      unfold rbind in P at 1.
      destruct (get_prop part "text") as [tx|e]; [|discriminate].
      simpl in P. inversion P. reflexivity. }
    rewrite Q. simpl. rewrite (IH ps eq_refl). reflexivity.
Qed.

(** X15: the chat translator is idempotent: a message it produced is
    translated to itself when given to it again. *)
Theorem chat_translate_idempotent (msg out : JsValue) :
  chat_translate msg = Ok out -> chat_translate out = Ok out.
Proof.
  unfold chat_translate at 1.
  destruct (get_prop msg "role") as [role|e]; [|discriminate].
  unfold rbind at 1.
  destruct (str_eq role "developer") eqn:D.
  - destruct (get_prop msg "content") as [content|e]; [|discriminate].
    unfold rbind at 1.
    match goal with
    | |- rbind ?j _ = _ -> _ => destruct j as [joined|e]; [|discriminate]
    end.
    intros H. inversion H. reflexivity.
  - destruct (get_prop msg "content") as [content|e]; [|discriminate].
    intros H. inversion H. unfold chat_translate, message_obj. simpl get_prop.
    unfold rbind. simpl own. rewrite D. reflexivity.
Qed.

(** X16: the plan translator is idempotent: a message it produced is
    translated to itself when given to it again. *)
Theorem plan_translate_idempotent (msg out : JsValue) :
  plan_translate msg = Ok out -> plan_translate out = Ok out.
Proof.
  unfold plan_translate at 1.
  destruct (get_prop msg "role") as [role|e]; [|discriminate].
  unfold rbind at 1.
  destruct (str_eq role "developer").
  { intros H. inversion H. reflexivity. }
  destruct (get_prop msg "content") as [content|e]; [|discriminate].
  unfold rbind at 1. unfold plan_fallback.
  destruct content as [| |b|n|s|parts|o]; simpl is_string; simpl is_array; cbv iota;
    try (intros H; inversion H; reflexivity).
  - destruct (str_eq role "system");
      [|destruct (str_eq role "user"); [|destruct (str_eq role "assistant")]];
      intros H; inversion H; reflexivity.
  - simpl call_map.
    destruct (mapM content_part parts) as [ps|e] eqn:E; [|discriminate].
    unfold rbind. pose proof (content_part_fixed parts ps E) as Q.
    destruct (str_eq role "user"); [|destruct (str_eq role "assistant")];
      intros H; inversion H;
      try (unfold plan_translate, message_obj; simpl; rewrite Q; reflexivity);
      reflexivity.
Qed.

(** X17: for both tools a call whose arguments are missing, whose
    [messages] is not an array, or whose [messages] holds a null element
    ends in the error envelope without any downstream call and leaves the
    state as it was. *)
Theorem malformed_arguments_enveloped (request : CallToolRequest) (st : St) :
  name request = "openai_chat" \/ name request = "openai_plan" ->
  arguments request = None \/
  (exists props, arguments request = Some props /\
                 is_array (own props "messages") = false) \/
  (exists props items, arguments request = Some props /\
                       own props "messages" = JArr items /\ In JNull items) ->
  (exists e, call_tool request st =
             (Ok {| content := [{| type := "text";
                                   text := "OpenAI API error: " ++ message_of e |}];
                    isError := Some true |}, st)) /\
  issued (call_tool request) st = [].
Proof.
  intros Hn Hbad.
  assert (R : exists e, call_tool request st = (Ok (error_envelope e), st)).
  { destruct Hbad as [Ha|[[props [Ha Hm]]|[props [items [Ha [Hm Hin]]]]]].
    - eexists. apply (missing_arguments_run request st Hn Ha).
    - destruct Hn as [Hn|Hn].
      + rewrite (chat_run request props st Hn Ha).
        destruct (includes SUPPORTED_MODELS _); [|eexists; reflexivity].
        destruct (own props "messages"); try discriminate; eexists; reflexivity.
      + rewrite (plan_run request props st Hn Ha). cbv zeta.
        destruct (includes PLAN_MODELS _); [|eexists; reflexivity].
        destruct (own props "messages"); try discriminate; eexists; reflexivity.
    - destruct Hn as [Hn|Hn].
      + rewrite (chat_run request props st Hn Ha), Hm.
        destruct (includes SUPPORTED_MODELS _); [|eexists; reflexivity].
        simpl call_map.
        destruct (mapM_raises _ _ chat_translate items JNull Hin) as [e ->];
          [eexists; reflexivity | eexists; reflexivity].
      + rewrite (plan_run request props st Hn Ha), Hm. cbv zeta.
        destruct (includes PLAN_MODELS _); [|eexists; reflexivity].
        simpl call_map.
        destruct (mapM_raises _ _ plan_translate items JNull Hin) as [e ->];
          [eexists; reflexivity | eexists; reflexivity]. }
  destruct R as [e R]. split.
  - exists e. rewrite R. reflexivity.
  - apply (issued_none _ _ _ _ R).
Qed.

(** * The catalog, the dispatcher and start-up *)

(** X18: the dispatcher handles exactly the tools the catalog lists: a
    CallTool request gets an envelope if and only if its name is the name
    of a tool returned by ListTools; any other name raises. *)
Theorem listed_tools_are_dispatched (request : CallToolRequest) (st : St) :
  In (JStr (name request)) (map (fun tool => prop_of tool "name") TOOLS) <->
  exists envelope st', call_tool request st = (Ok envelope, st').
Proof.
  destruct (name_cases request) as [Hn|[Hn|[Hc Hp]]].
  - split; intros _.
    + destruct (handler_outcome request st (or_introl Hn)) as [[e R]|[req R]];
        rewrite R; [eexists; eexists; reflexivity|].
      unfold after_create. destruct (create req (world st)).
      eexists; eexists; reflexivity.
    + rewrite Hn. left. reflexivity.
  - split; intros _.
    + destruct (handler_outcome request st (or_intror Hn)) as [[e R]|[req R]];
        rewrite R; [eexists; eexists; reflexivity|].
      unfold after_create. destruct (create req (world st)).
      eexists; eexists; reflexivity.
    + rewrite Hn. right. left. reflexivity.
  - split.
    + intros [H|[H|[]]]; inversion H; congruence.
    + intros [envelope [st' H]]. unfold call_tool in H.
      apply String.eqb_neq in Hc. apply String.eqb_neq in Hp.
      rewrite Hc, Hp in H. discriminate.
Qed.

(** X19: the chat handler accepts exactly the models its schema
    advertises: with an advertised model the call goes on to the
    translation and the downstream call with that model, with any other
    string it is rejected as unsupported. *)
Theorem chat_accepts_advertised_models
    (request : CallToolRequest) (st : St) (props : JsObject) (m : string) :
  name request = "openai_chat" ->
  arguments request = Some props ->
  own props "model" = JStr m ->
  (In (JStr m) (elements (prop_of (argument_schema "openai_chat" "model") "enum")) ->
   call_tool request st =
     match call_map (own props "messages") "rawMessages.map" chat_translate with
     | Ok msgs => after_create (chat_api_config msgs (JStr m)) st
     | Raise e => (Ok (error_envelope e), st)
     end) /\
  (~ In (JStr m) (elements (prop_of (argument_schema "openai_chat" "model") "enum")) ->
   call_tool request st =
     (Ok (error_envelope
            (Error ("Unsupported model: " ++ m
                    ++ ". Must be one of: gpt-4o, gpt-4o-mini, o1-preview, o1-mini, o1, o3-mini"))),
      st)).
Proof.
  intros Hn Ha Hm. rewrite (chat_run request props st Hn Ha), Hm.
  change (elements (prop_of (argument_schema "openai_chat" "model") "enum"))
    with (map JStr SUPPORTED_MODELS).
  split.
  - intros Hin. apply in_map_iff in Hin. destruct Hin as [m' [E Hin]].
    inversion E; subst m'. rewrite (includes_true _ _ Hin). reflexivity.
  - intros Hnot. rewrite includes_false; [reflexivity|].
    intros m' Hin E. apply Hnot. rewrite E. apply in_map, Hin.
Qed.

(** X20: the plan handler does not accept what its schema advertises.  Of
    the four advertised models, o1-preview and o1-mini go on to the
    translation and the downstream call, while o1 (the advertised default)
    and o3-mini are rejected as unsupported; the model the handler applies
    when none is given, o1-2024-12-17, is not advertised. *)
Theorem plan_advertised_models
    (request : CallToolRequest) (st : St) (props : JsObject) (m : string) :
  name request = "openai_plan" ->
  arguments request = Some props ->
  own props "model" = JStr m ->
  In (JStr m) (elements (prop_of (argument_schema "openai_plan" "model") "enum")) ->
  (m = "o1-preview" \/ m = "o1-mini" \/ m = "o1" \/ m = "o3-mini") /\
  (m = "o1-preview" \/ m = "o1-mini" ->
   call_tool request st =
     match call_map (own props "messages") "rawMessages.map" plan_translate with
     | Ok msgs =>
         after_create
           (plan_api_config msgs (JStr m)
              (default_to (own props "reasoning_effort") (JStr DEFAULT_REASONING_EFFORT)))
           st
     | Raise e => (Ok (error_envelope e), st)
     end) /\
  (m = "o1" \/ m = "o3-mini" ->
   call_tool request st =
     (Ok (error_envelope
            (Error ("Unsupported model for reasoning: " ++ m
                    ++ ". Must be one of: o1-preview, o1-mini, o1-2024-12-17"))),
      st)) /\
  prop_of (argument_schema "openai_plan" "model") "default" = JStr "o1" /\
  ~ In (JStr "o1-2024-12-17")
       (elements (prop_of (argument_schema "openai_plan" "model") "enum")).
Proof.
  intros Hn Ha Hm Hin.
  pose proof (plan_run request props st Hn Ha) as R. cbv zeta in R.
  rewrite Hm in R. simpl default_to in R.
  change (elements (prop_of (argument_schema "openai_plan" "model") "enum"))
    with (map (@JStr) ["o1-preview"; "o1-mini"; "o1"; "o3-mini"]) in *.
  split; [|split; [|split; [|split]]].
  - simpl in Hin. destruct Hin as [E|[E|[E|[E|[]]]]]; inversion E; auto.
  - intros [->| ->]; rewrite R; reflexivity.
  - intros [->| ->]; rewrite R; reflexivity.
  - reflexivity.
  - simpl. intros [E|[E|[E|[E|[]]]]]; discriminate.
Qed.

(** X21: the module starts only with a usable key: the key handed to the
    client is the value of OPENAI_API_KEY when that is set and not empty,
    and start-up fails with the explanatory error when the variable is
    missing or empty. *)
Theorem api_key_required (OPENAI_API_KEY : option string) :
  (forall key, require_api_key OPENAI_API_KEY = Ok key <->
               OPENAI_API_KEY = Some key /\ key <> EmptyString) /\
  (require_api_key OPENAI_API_KEY = Raise (Error API_KEY_REQUIRED) <->
   OPENAI_API_KEY = None \/ OPENAI_API_KEY = Some EmptyString).
Proof.
  destruct OPENAI_API_KEY as [[|a s]|]; simpl; split.
  - intros key. split; [discriminate | intros [E H]; inversion E; subst; destruct (H eq_refl)].
  - split; [right; reflexivity | reflexivity].
  - intros key. split.
    + intros E. inversion E. split; [reflexivity | discriminate].
    + intros [E _]. inversion E. reflexivity.
  - split; [discriminate | intros [E|E]; discriminate].
  - intros key. split; [discriminate | intros [E _]; discriminate].
  - split; [left; reflexivity | reflexivity].
Qed.

End Engine.

Arguments JUndefined {number}.
Arguments JNull {number}.
Arguments JBool {number} b.
Arguments JNum {number} n.
Arguments JStr {number} s.
Arguments JArr {number} items.
Arguments JObj {number} props.
Arguments DestructureUndefined {number}.
Arguments PropertyOfNullish {number} base prop.
Arguments NotAFunction {number} callee.
Arguments NoPrimitiveValue {number}.
Arguments Error {number} message.
Arguments TypeError {number} fault.
Arguments McpError {number} code message.
Arguments Ok {number A} a.
Arguments Raise {number A} e.
Arguments own {number} props key.
Arguments get_prop {number} v prop.
Arguments to_string {number} number_to_string v.
Arguments includes {number} xs v.
Arguments default_to {number} v d.
Arguments nullish {number} v.
Arguments plain_message {number} msg.
Arguments plan_handled {number} role content.
Arguments DEFAULT_DEVELOPER_CONTENT {number}.
Arguments chat_translate {number} number_to_string msg.
Arguments plan_translate {number} msg.
Arguments call_map {number} v callee f.
Arguments messages {number} a.
Arguments model {number} a.
Arguments temperature {number} a.
Arguments max_tokens {number} a.
Arguments reasoning_effort {number} a.
Arguments response_format {number} a.
Arguments Build_ApiRequest {number} messages model temperature max_tokens
  reasoning_effort response_format.
Arguments chat_api_config {number} messages model.
Arguments plan_api_config {number} number_to_boolean messages model reasoning_effort.
Arguments world {number World} s.
Arguments calls {number World} s.
Arguments Build_St {number World} world calls.
Arguments name {number} c.
Arguments arguments {number} c.
Arguments Build_CallToolRequest {number} name arguments.
Arguments message_of {number} fault_message e.
Arguments error_envelope {number} fault_message error.
Arguments openai_chat_try {number} number_to_string {World} create arguments st.
Arguments openai_plan_try {number} number_to_string number_to_boolean {World} create arguments st.
Arguments call_tool {number} number_to_string number_to_boolean fault_message
  {World} create request st.
Arguments issued {number World A} m st.
Arguments prop_of {number} v prop.
Arguments at_path {number} v path.
Arguments elements {number} v.
Arguments TOOLS {number}.
Arguments list_tools {number}.
Arguments find_tool {number} tool_name.
Arguments argument_schema {number} tool_name argument.
Arguments require_api_key {number} OPENAI_API_KEY.
Arguments after_create {number} fault_message {World} create req st.
Arguments to_boolean {number} number_to_boolean v.

(** * A concrete engine and client

    The parameters instantiated: integer JSON numbers printed in decimal,
    the fault messages of V8, and a client that replays a script of
    answers.  The lemmas below run the theorems on concrete requests. *)

Definition z_to_string (z : Z) : string := NilZero.string_of_int (Z.to_int z).
Definition z_to_boolean (z : Z) : bool := negb (Z.eqb z 0).

Definition v8_fault_message (f : Fault Z) : string :=
  match f with
  | DestructureUndefined =>
      "Cannot destructure property 'messages' of 'request.params.arguments' as it is undefined."
  | PropertyOfNullish JNull prop =>
      "Cannot read properties of null (reading '" ++ prop ++ "')"
  | PropertyOfNullish _ prop =>
      "Cannot read properties of undefined (reading '" ++ prop ++ "')"
  | NotAFunction callee => callee ++ " is not a function"
  | NoPrimitiveValue => "Cannot convert object to primitive value"
  end.

(** The client's answers, in order; an exhausted script rejects. *)
Definition Script : Type := list (Res Z ChatCompletion).

Definition scripted (req : ApiRequest Z) (w : Script) : Res Z ChatCompletion * Script :=
  match w with
  | [] => (Raise (Error "Connection error."), [])
  | r :: rest => (r, rest)
  end.

Definition run_tool (request : CallToolRequest Z) : M Z Script Envelope :=
  call_tool z_to_string z_to_boolean v8_fault_message scripted request.

Definition fresh (w : Script) : St Z Script := {| world := w; calls := [] |}.

Definition text_message (role content : string) : JsValue Z :=
  JObj [("role", JStr role); ("content", JStr content)].

Definition answer (t : string) : Res Z ChatCompletion :=
  Ok {| choices := [{| message := Some {| message_content := Some t |} |}] |}.

Example chat_scenario :
  run_tool {| name := "openai_chat";
              arguments := Some [("messages", JArr [text_message "user" "hi"]);
                                 ("model", JStr "gpt-4o")] |}
           (fresh [answer "hello"])
  = (Ok {| content := [{| type := "text"; text := "hello" |}]; isError := None |},
     {| world := [];
        calls := [{| messages := [text_message "user" "hi"];
                     model := JStr "gpt-4o";
                     temperature := Some (7 # 10);
                     max_tokens := Some 2000%Z;
                     reasoning_effort := None;
                     response_format := None |}] |}).
Proof. reflexivity. Qed.

Example plan_scenario :
  run_tool {| name := "openai_plan";
              arguments := Some [("messages", JArr [text_message "user" "hi"])] |}
           (fresh [answer "plan"])
  = (Ok {| content := [{| type := "text"; text := "plan" |}]; isError := None |},
     {| world := [];
        calls := [{| messages := [text_message "user" "hi"];
                     model := JStr "o1-2024-12-17";
                     temperature := None;
                     max_tokens := None;
                     reasoning_effort := Some (JStr "low");
                     response_format := Some (JObj [("type", JStr "text")]) |}] |}).
Proof. reflexivity. Qed.

Example plan_default_identifier_rejected :
  run_tool {| name := "openai_plan";
              arguments := Some [("messages", JArr [text_message "user" "hi"]);
                                 ("model", JStr DEFAULT_PLAN_MODEL)] |}
           (fresh [answer "plan"])
  = (Ok {| content :=
             [{| type := "text";
                 text := "OpenAI API error: Unsupported model for reasoning: o1. Must be one of: o1-preview, o1-mini, o1-2024-12-17" |}];
           isError := Some true |},
     fresh [answer "plan"]).
Proof. reflexivity. Qed.

Example plan_null_part_raises :
  plan_translate (JObj [("role", JStr "system"); ("content", JArr [@JNull Z])])
  = Raise (TypeError (PropertyOfNullish JNull "type")).
Proof. reflexivity. Qed.

Example chat_developer_joined :
  chat_translate z_to_string
    (JObj [("role", JStr "developer");
           ("content", JArr [JObj [("type", JStr "text"); ("text", JStr "a")];
                             JObj [("type", JStr "text"); ("text", JNum 7%Z)]])])
  = Ok (JObj [("role", JStr "assistant"); ("content", JStr ("a" ++ nl ++ "7"))]).
Proof. reflexivity. Qed.

Example plan_unlisted_o3_mini_rejected :
  run_tool {| name := "openai_plan";
              arguments := Some [("messages", JArr [text_message "user" "hi"]);
                                 ("model", JStr "o3-mini")] |}
           (fresh [answer "plan"])
  = (Ok {| content :=
             [{| type := "text";
                 text := "OpenAI API error: Unsupported model for reasoning: o3-mini. Must be one of: o1-preview, o1-mini, o1-2024-12-17" |}];
           isError := Some true |},
     fresh [answer "plan"]).
Proof. reflexivity. Qed.

Example plan_developer_scenario :
  run_tool {| name := "openai_plan";
              arguments :=
                Some [("messages", JArr [text_message "developer" "You are a pirate.";
                                         text_message "user" "hi"]);
                      ("reasoning_effort", JStr "high")] |}
           (fresh [answer "plan"])
  = (Ok {| content := [{| type := "text"; text := "plan" |}]; isError := None |},
     {| world := [];
        calls := [{| messages := [JObj [("role", JStr "developer");
                                        ("content", DEFAULT_DEVELOPER_CONTENT)];
                                  text_message "user" "hi"];
                     model := JStr "o1-2024-12-17";
                     temperature := None;
                     max_tokens := None;
                     reasoning_effort := Some (JStr "high");
                     response_format := Some (JObj [("type", JStr "text")]) |}] |}).
Proof. reflexivity. Qed.

(** ** The theorems at concrete requests *)

Definition developer_request : CallToolRequest Z :=
  {| name := "openai_plan";
     arguments :=
       Some [("messages", JArr [text_message "user" "hi";
                                text_message "developer" "You are a pirate."])] |}.

Lemma plan_developer_content_fixed_witness :
  (name developer_request = "openai_plan" /\
   nth_error [text_message "user" "hi"; text_message "developer" "You are a pirate."] 1
   = Some (text_message "developer" "You are a pirate.") /\
   get_prop (text_message "developer" "You are a pirate.") "role" = Ok (JStr "developer")) /\
  plan_translate (text_message "developer" "You are a pirate.") =
    Ok (JObj [("role", JStr "developer"); ("content", DEFAULT_DEVELOPER_CONTENT)]) /\
  forall req, In req (issued (run_tool developer_request) (fresh [answer "plan"])) ->
    nth_error (messages req) 1 =
      Some (JObj [("role", JStr "developer"); ("content", DEFAULT_DEVELOPER_CONTENT)]).
Proof.
  split; [repeat split; reflexivity|].
  apply (plan_developer_content_fixed Z z_to_string z_to_boolean v8_fault_message
           Script scripted developer_request (fresh [answer "plan"])
           [("messages", JArr [text_message "user" "hi";
                               text_message "developer" "You are a pirate."])]
           [text_message "user" "hi"; text_message "developer" "You are a pirate."]
           1 (text_message "developer" "You are a pirate."));
    reflexivity.
Defined.

Definition o1_request : CallToolRequest Z :=
  {| name := "openai_plan";
     arguments := Some [("messages", JArr [text_message "user" "hi"]);
                        ("model", JStr "o1")] |}.

Lemma plan_rejects_other_models_witness :
  (name o1_request = "openai_plan" /\
   own [("messages", JArr [text_message "user" "hi"]); ("model", @JStr Z "o1")] "model"
   <> JUndefined) /\
  (exists detail,
      run_tool o1_request (fresh [answer "plan"]) =
        (Ok {| content := [{| type := "text";
                              text := "OpenAI API error: " ++ detail |}];
               isError := Some true |}, fresh [answer "plan"])) /\
  issued (run_tool o1_request) (fresh [answer "plan"]) = [].
Proof.
  split; [split; [reflexivity | discriminate]|].
  apply (plan_rejects_other_models Z z_to_string z_to_boolean v8_fault_message
           Script scripted o1_request (fresh [answer "plan"])
           [("messages", JArr [text_message "user" "hi"]); ("model", JStr "o1")]).
  - reflexivity.
  - reflexivity.
  - discriminate.
  - intros m [<-|[<-|[<-|[]]]]; discriminate.
Defined.

Definition plan_request : CallToolRequest Z :=
  {| name := "openai_plan";
     arguments := Some [("messages", JArr [text_message "user" "hi"]);
                        ("response_format", JObj [("type", JStr "json_object")])] |}.

Definition plan_request_sent : ApiRequest Z :=
  {| messages := [text_message "user" "hi"];
     model := JStr "o1-2024-12-17";
     temperature := None;
     max_tokens := None;
     reasoning_effort := Some (JStr "low");
     response_format := Some (JObj [("type", JStr "text")]) |}.

Lemma plan_request_format_forced_witness :
  (name plan_request = "openai_plan" /\
   In plan_request_sent (issued (run_tool plan_request) (fresh [answer "plan"]))) /\
  response_format plan_request_sent = Some (JObj [("type", JStr "text")]) /\
  temperature plan_request_sent = None /\
  max_tokens plan_request_sent = None.
Proof.
  split; [split; [reflexivity | left; reflexivity]|].
  apply (plan_request_format_forced Z z_to_string z_to_boolean v8_fault_message
           Script scripted plan_request (fresh [answer "plan"]) plan_request_sent).
  - reflexivity.
  - left. reflexivity.
Defined.

Definition conversation : list (JsValue Z) :=
  [text_message "system" "Be brief."; text_message "user" "hi";
   text_message "assistant" "hello"].

Definition chat_request : CallToolRequest Z :=
  {| name := "openai_chat";
     arguments := Some [("messages", JArr conversation); ("model", JStr "gpt-4o-mini")] |}.

Lemma conversation_plain : Forall plain_message conversation.
Proof.
  repeat constructor.
  - exists "system", "Be brief.". simpl. auto.
  - exists "user", "hi". simpl. auto.
  - exists "assistant", "hello". simpl. auto.
Defined.

Lemma chat_plain_messages_unchanged_witness :
  (name chat_request = "openai_chat" /\ Forall plain_message conversation) /\
  exists out,
    call_map (JArr conversation) "rawMessages.map" (chat_translate z_to_string) = Ok out /\
    length out = length conversation /\
    (forall i msg, nth_error conversation i = Some msg ->
       exists o, nth_error out i = Some o /\
                 get_prop o "role" = get_prop msg "role" /\
                 get_prop o "content" = get_prop msg "content") /\
    (Forall (fun msg => exists role content,
                 msg = JObj [("role", role); ("content", content)]) conversation ->
     out = conversation) /\
    (forall req, In req (issued (run_tool chat_request) (fresh [answer "hey"])) ->
                 messages req = out) /\
    (forall m, In m SUPPORTED_MODELS ->
       own [("messages", JArr conversation); ("model", JStr "gpt-4o-mini")] "model"
       = JStr m ->
       exists req, issued (run_tool chat_request) (fresh [answer "hey"]) = [req] /\
                   messages req = out).
Proof.
  split; [split; [reflexivity | exact conversation_plain]|].
  apply (chat_plain_messages_unchanged Z z_to_string z_to_boolean v8_fault_message
           Script scripted chat_request (fresh [answer "hey"])
           [("messages", JArr conversation); ("model", JStr "gpt-4o-mini")]
           conversation).
  - reflexivity.
  - reflexivity.
  - reflexivity.
  - exact conversation_plain.
Defined.

Definition system_parts : JsValue Z :=
  JObj [("role", JStr "system");
        ("content", JArr [JObj [("type", JStr "text"); ("text", JStr "Be brief.")]])].

Lemma plan_fallback_translation_witness :
  (get_prop system_parts "role" = Ok (JStr "system") /\
   plan_handled (@JStr Z "system")
     (JArr [JObj [("type", JStr "text"); ("text", JStr "Be brief.")]]) = false) /\
  plan_translate system_parts =
    Ok (JObj [("role", JStr "user"); ("content", JStr "Invalid content format")]).
Proof.
  split; [split; reflexivity|].
  apply (plan_fallback_translation Z system_parts (JStr "system")
           (JArr [JObj [("type", JStr "text"); ("text", JStr "Be brief.")]])).
  - reflexivity.
  - reflexivity.
  - reflexivity.
  - intros parts E. injection E as <-. repeat constructor.
Defined.

(** The claim without the condition on the parts is false: a system
    message whose array content holds a null part matches none of the
    handled combinations, yet the translation raises, and the call ends in
    the error envelope without a downstream call. *)
Definition system_null_part : JsValue Z :=
  JObj [("role", JStr "system"); ("content", JArr [JNull])].

Definition system_null_part_request : CallToolRequest Z :=
  {| name := "openai_plan";
     arguments := Some [("messages", JArr [system_null_part])] |}.

Lemma plan_fallback_translation_counterexample :
  get_prop system_null_part "role" = Ok (JStr "system") /\
  get_prop system_null_part "content" = Ok (JArr [JNull]) /\
  plan_handled (@JStr Z "system") (JArr [JNull]) = false /\
  plan_translate system_null_part = Raise (TypeError (PropertyOfNullish JNull "type")) /\
  plan_translate system_null_part <>
    Ok (JObj [("role", JStr "user"); ("content", JStr "Invalid content format")]) /\
  run_tool system_null_part_request (fresh [answer "plan"]) =
    (Ok {| content :=
             [{| type := "text";
                 text := "OpenAI API error: Cannot read properties of null (reading 'type')" |}];
           isError := Some true |},
     fresh [answer "plan"]).
Proof.
  repeat split; try reflexivity. discriminate.
Qed.



Definition unknown_request : CallToolRequest Z :=
  {| name := "unknown_tool"; arguments := Some [] |}.

Lemma unknown_tool_method_not_found_witness :
  (name unknown_request <> "openai_chat" /\ name unknown_request <> "openai_plan") /\
  run_tool unknown_request (fresh [answer "hey"]) =
    (Raise (McpError MethodNotFound ("Unknown tool: " ++ name unknown_request)),
     fresh [answer "hey"]) /\
  issued (run_tool unknown_request) (fresh [answer "hey"]) = [].
Proof.
  split; [split; discriminate|].
  apply (unknown_tool_method_not_found Z z_to_string z_to_boolean v8_fault_message
           Script scripted unknown_request (fresh [answer "hey"])); discriminate.
Defined.

Definition bare_arguments : JsObject Z := [("messages", JArr [text_message "user" "hi"])].
Definition bare_chat : CallToolRequest Z :=
  {| name := "openai_chat"; arguments := Some bare_arguments |}.
Definition bare_plan : CallToolRequest Z :=
  {| name := "openai_plan"; arguments := Some bare_arguments |}.

Lemma chat_omitted_model_rejected_witness :
  own bare_arguments "model" = JUndefined /\
  includes SUPPORTED_MODELS (own bare_arguments "model") = false /\
  run_tool bare_chat (fresh [answer "hey"]) =
    (Ok {| content :=
             [{| type := "text";
                 text := "OpenAI API error: Unsupported model: undefined. Must be one of: gpt-4o, gpt-4o-mini, o1-preview, o1-mini, o1, o3-mini" |}];
           isError := Some true |}, fresh [answer "hey"]) /\
  issued (run_tool bare_chat) (fresh [answer "hey"]) = [] /\
  includes PLAN_MODELS (default_to (own bare_arguments "model") (JStr "o1-2024-12-17"))
  = true /\
  (forall msgs,
      call_map (own bare_arguments "messages") "rawMessages.map" plan_translate = Ok msgs ->
      exists req,
        issued (run_tool bare_plan) (fresh [answer "hey"]) = [req] /\
        model req = JStr "o1-2024-12-17" /\ messages req = msgs).
Proof.
  split; [reflexivity|].
  apply (chat_omitted_model_rejected Z z_to_string z_to_boolean v8_fault_message
           Script scripted bare_chat bare_plan bare_arguments (fresh [answer "hey"]));
    reflexivity.
Defined.

(** ** The further theorems at concrete requests *)

Definition said (t : string) : ChatCompletion :=
  {| choices := [{| message := Some {| message_content := Some t |} |}] |}.

Definition chat_request_sent : ApiRequest Z :=
  {| messages := conversation;
     model := JStr "gpt-4o-mini";
     temperature := Some (7 # 10);
     max_tokens := Some 2000%Z;
     reasoning_effort := None;
     response_format := None |}.

Definition gpt5_arguments : JsObject Z :=
  [("messages", JArr conversation); ("model", JStr "gpt-5")].
Definition gpt5_request : CallToolRequest Z :=
  {| name := "openai_chat"; arguments := Some gpt5_arguments |}.

Lemma chat_rejects_other_models_witness :
  (name gpt5_request = "openai_chat" /\ own gpt5_arguments "model" = JStr "gpt-5") /\
  issued (run_tool gpt5_request) (fresh [answer "hey"]) = [] /\
  run_tool gpt5_request (fresh [answer "hey"]) =
    (Ok {| content :=
             [{| type := "text";
                 text := "OpenAI API error: Unsupported model: " ++ "gpt-5"
                         ++ ". Must be one of: gpt-4o, gpt-4o-mini, o1-preview, o1-mini, o1, o3-mini" |}];
           isError := Some true |}, fresh [answer "hey"]).
Proof.
  split; [split; reflexivity|].
  destruct (chat_rejects_other_models Z z_to_string z_to_boolean v8_fault_message
              Script scripted gpt5_request (fresh [answer "hey"]) gpt5_arguments
              eq_refl eq_refl) as [_ [H1 H2]].
  - intros m [<-|[<-|[<-|[<-|[<-|[<-|[]]]]]]]; discriminate.
  - split; [exact H1 | exact (H2 "gpt-5" eq_refl)].
Defined.

Lemma completion_text_returned_witness :
  (name chat_request = "openai_chat" /\
   In chat_request_sent (issued (run_tool chat_request) (fresh [answer "hey"])) /\
   scripted chat_request_sent (world (fresh [answer "hey"])) = (Ok (said "hey"), []) /\
   first_choice_content (said "hey") = Some "hey") /\
  run_tool chat_request (fresh [answer "hey"]) =
    (Ok {| content := [{| type := "text"; text := "hey" |}]; isError := None |},
     {| world := []; calls := [chat_request_sent] |}).
Proof.
  split; [split; [reflexivity | split; [left; reflexivity | split; reflexivity]]|].
  apply (completion_text_returned Z z_to_string z_to_boolean v8_fault_message
           Script scripted chat_request (fresh [answer "hey"]) chat_request_sent
           (said "hey") [] "hey").
  - left. reflexivity.
  - left. reflexivity.
  - reflexivity.
  - reflexivity.
  - discriminate.
Defined.

Lemma downstream_rejection_reported_witness :
  (In chat_request_sent (issued (run_tool chat_request) (fresh [])) /\
   scripted chat_request_sent (world (fresh [])) = (Raise (Error "Connection error."), [])) /\
  run_tool chat_request (fresh []) =
    (Ok {| content := [{| type := "text";
                          text := "OpenAI API error: " ++ "Connection error." |}];
           isError := Some true |},
     {| world := []; calls := [chat_request_sent] |}) /\
  issued (run_tool chat_request) (fresh []) = [chat_request_sent].
Proof.
  split; [split; [left; reflexivity | reflexivity]|].
  apply (downstream_rejection_reported Z z_to_string z_to_boolean v8_fault_message
           Script scripted chat_request (fresh []) chat_request_sent
           (Error "Connection error.") []).
  - left. reflexivity.
  - left. reflexivity.
  - reflexivity.
Defined.

Lemma envelope_shape_witness :
  run_tool chat_request (fresh [answer "hey"]) =
    (Ok {| content := [{| type := "text"; text := "hey" |}]; isError := None |},
     {| world := []; calls := [chat_request_sent] |}) /\
  exists t,
    [{| type := "text"; text := "hey" |}] = [{| type := "text"; text := t |}] /\
    t <> EmptyString /\
    ((@None bool = None /\
      exists req completion w,
        scripted req (world (fresh [answer "hey"])) = (Ok completion, w) /\
        t = response_text completion) \/
     (@None bool = Some true /\
      exists e, t = "OpenAI API error: " ++ message_of v8_fault_message e)).
Proof.
  split; [reflexivity|].
  apply (envelope_shape Z z_to_string z_to_boolean v8_fault_message Script scripted
           chat_request (fresh [answer "hey"])
           {| world := []; calls := [chat_request_sent] |}
           {| content := [{| type := "text"; text := "hey" |}]; isError := None |}).
  reflexivity.
Defined.

Lemma chat_request_shape_witness :
  (name chat_request = "openai_chat" /\
   In chat_request_sent (issued (run_tool chat_request) (fresh [answer "hey"]))) /\
  temperature chat_request_sent = Some (7 # 10) /\
  max_tokens chat_request_sent = Some 2000%Z /\
  reasoning_effort chat_request_sent = None /\
  response_format chat_request_sent = None /\
  exists m,
    In m ["gpt-4o"; "gpt-4o-mini"; "o1-preview"; "o1-mini"; "o1"; "o3-mini"] /\
    model chat_request_sent = JStr m.
Proof.
  split; [split; [reflexivity | left; reflexivity]|].
  apply (chat_request_shape Z z_to_string z_to_boolean v8_fault_message Script scripted
           chat_request (fresh [answer "hey"]) chat_request_sent).
  - reflexivity.
  - left. reflexivity.
Defined.

Lemma plan_request_model_validated_witness :
  (name plan_request = "openai_plan" /\
   In plan_request_sent (issued (run_tool plan_request) (fresh [answer "plan"]))) /\
  exists m, In m ["o1-preview"; "o1-mini"; "o1-2024-12-17"] /\
            model plan_request_sent = JStr m.
Proof.
  split; [split; [reflexivity | left; reflexivity]|].
  apply (plan_request_model_validated Z z_to_string z_to_boolean v8_fault_message
           Script scripted plan_request (fresh [answer "plan"]) plan_request_sent).
  - reflexivity.
  - left. reflexivity.
Defined.

Definition effort_arguments : JsObject Z :=
  [("messages", JArr [text_message "user" "hi"]); ("reasoning_effort", JStr "extreme")].
Definition effort_request : CallToolRequest Z :=
  {| name := "openai_plan"; arguments := Some effort_arguments |}.
Definition effort_request_sent : ApiRequest Z :=
  {| messages := [text_message "user" "hi"];
     model := JStr "o1-2024-12-17";
     temperature := None;
     max_tokens := None;
     reasoning_effort := Some (JStr "extreme");
     response_format := Some (JObj [("type", JStr "text")]) |}.

Lemma plan_reasoning_effort_passed_witness :
  (name effort_request = "openai_plan" /\
   In effort_request_sent (issued (run_tool effort_request) (fresh [answer "plan"]))) /\
  reasoning_effort effort_request_sent =
    match own effort_arguments "reasoning_effort" with
    | JUndefined => Some (JStr "low")
    | supplied => if to_boolean z_to_boolean supplied then Some supplied else None
    end.
Proof.
  split; [split; [reflexivity | left; reflexivity]|].
  apply (plan_reasoning_effort_passed Z z_to_string z_to_boolean v8_fault_message
           Script scripted effort_request (fresh [answer "plan"]) effort_arguments
           effort_request_sent).
  - reflexivity.
  - reflexivity.
  - left. reflexivity.
Defined.

Lemma translation_preserves_length_witness :
  (name chat_request = "openai_chat" /\
   In chat_request_sent (issued (run_tool chat_request) (fresh [answer "hey"]))) /\
  exists props items,
    arguments chat_request = Some props /\
    own props "messages" = JArr items /\
    length (messages chat_request_sent) = length items.
Proof.
  split; [split; [reflexivity | left; reflexivity]|].
  apply (translation_preserves_length Z z_to_string z_to_boolean v8_fault_message
           Script scripted chat_request (fresh [answer "hey"]) chat_request_sent).
  - left. reflexivity.
  - left. reflexivity.
Defined.

Definition developer_parts : JsValue Z :=
  JObj [("role", JStr "developer");
        ("content", JArr [JObj [("type", JStr "text"); ("text", JStr "Be brief.")];
                          JObj [("type", JStr "text"); ("text", JStr "Be kind.")]])].

Lemma chat_developer_becomes_assistant_witness :
  get_prop developer_parts "role" = Ok (JStr "developer") /\
  chat_translate z_to_string developer_parts =
    Ok (JObj [("role", JStr "assistant");
              ("content", JStr (String.concat nl ["Be brief."; "Be kind."]))]).
Proof.
  split; [reflexivity|].
  destruct (chat_developer_becomes_assistant Z z_to_string developer_parts
              (JArr [JObj [("type", JStr "text"); ("text", JStr "Be brief.")];
                     JObj [("type", JStr "text"); ("text", JStr "Be kind.")]])
              eq_refl eq_refl) as [_ H].
  apply (H _ ["Be brief."; "Be kind."] eq_refl).
  repeat constructor.
Defined.

Definition tool_message : JsValue Z :=
  JObj [("role", JStr "tool");
        ("content", JArr [JObj [("type", JStr "text"); ("text", JStr "42")]])].

Lemma chat_passes_other_roles_witness :
  (get_prop tool_message "role" = Ok (JStr "tool") /\ @JStr Z "tool" <> JStr "developer") /\
  chat_translate z_to_string tool_message =
    Ok (JObj [("role", JStr "tool");
              ("content", JArr [JObj [("type", JStr "text"); ("text", JStr "42")]])]).
Proof.
  split; [split; [reflexivity | discriminate]|].
  apply (chat_passes_other_roles Z z_to_string tool_message (JStr "tool")
           (JArr [JObj [("type", JStr "text"); ("text", JStr "42")]])).
  - reflexivity.
  - reflexivity.
  - discriminate.
Defined.

Lemma plan_keeps_string_messages_witness :
  In "system" ["system"; "user"; "assistant"] /\
  plan_translate (text_message "system" "Be brief.") =
    Ok (JObj [("role", JStr "system"); ("content", JStr "Be brief.")]).
Proof.
  split; [left; reflexivity|].
  apply (plan_keeps_string_messages Z (text_message "system" "Be brief.")
           "system" "Be brief.").
  - left. reflexivity.
  - reflexivity.
  - reflexivity.
Defined.

Definition tagged_part : JsValue Z :=
  JObj [("type", JStr "text"); ("text", JStr "hi"); ("cache", JBool true)].
Definition user_parts : JsValue Z :=
  JObj [("role", JStr "user"); ("content", JArr [tagged_part; JStr "bare"])].

Lemma plan_keeps_parts_witness :
  (get_prop user_parts "content" = Ok (JArr [tagged_part; JStr "bare"]) /\
   Forall (fun part => nullish part = false) [tagged_part; @JStr Z "bare"]) /\
  plan_translate user_parts =
    Ok (JObj [("role", JStr "user");
              ("content",
               JArr (map (fun part => JObj [("type", prop_of part "type");
                                            ("text", prop_of part "text")])
                         [tagged_part; JStr "bare"]))]).
Proof.
  split; [split; [reflexivity | repeat constructor]|].
  apply (plan_keeps_parts Z user_parts "user" [tagged_part; JStr "bare"]).
  - left. reflexivity.
  - reflexivity.
  - reflexivity.
  - repeat constructor.
Defined.

Lemma plan_translate_roles_witness :
  plan_translate (text_message "tool" "42") = Ok (text_message "user" "42") /\
  exists role content,
    text_message "user" "42" = JObj [("role", JStr role); ("content", content)] /\
    In role ["developer"; "system"; "user"; "assistant"].
Proof.
  split; [reflexivity|].
  apply (plan_translate_roles Z (text_message "tool" "42") (text_message "user" "42")).
  reflexivity.
Defined.

Lemma chat_translate_idempotent_witness :
  chat_translate z_to_string developer_parts =
    Ok (text_message "assistant" ("Be brief." ++ nl ++ "Be kind.")) /\
  chat_translate z_to_string (text_message "assistant" ("Be brief." ++ nl ++ "Be kind.")) =
    Ok (text_message "assistant" ("Be brief." ++ nl ++ "Be kind.")).
Proof.
  split; [reflexivity|].
  apply (chat_translate_idempotent Z z_to_string developer_parts
           (text_message "assistant" ("Be brief." ++ nl ++ "Be kind."))).
  reflexivity.
Defined.

Lemma plan_translate_idempotent_witness :
  plan_translate system_parts = Ok (text_message "user" "Invalid content format") /\
  plan_translate (text_message "user" "Invalid content format") =
    Ok (text_message "user" "Invalid content format").
Proof.
  split; [reflexivity|].
  apply (plan_translate_idempotent Z system_parts
           (text_message "user" "Invalid content format")).
  reflexivity.
Defined.

Definition no_arguments : CallToolRequest Z :=
  {| name := "openai_plan"; arguments := None |}.

Lemma malformed_arguments_enveloped_witness :
  (name no_arguments = "openai_plan" /\ arguments no_arguments = None) /\
  (exists e, run_tool no_arguments (fresh [answer "plan"]) =
             (Ok {| content := [{| type := "text";
                                   text := "OpenAI API error: "
                                           ++ message_of v8_fault_message e |}];
                    isError := Some true |}, fresh [answer "plan"])) /\
  issued (run_tool no_arguments) (fresh [answer "plan"]) = [].
Proof.
  split; [split; reflexivity|].
  apply (malformed_arguments_enveloped Z z_to_string z_to_boolean v8_fault_message
           Script scripted no_arguments (fresh [answer "plan"])).
  - right. reflexivity.
  - left. reflexivity.
Defined.

Lemma chat_accepts_advertised_models_witness :
  (name chat_request = "openai_chat" /\
   In (JStr "gpt-4o-mini")
      (elements (prop_of (@argument_schema Z "openai_chat" "model") "enum"))) /\
  run_tool chat_request (fresh [answer "hey"]) =
    after_create v8_fault_message scripted chat_request_sent (fresh [answer "hey"]).
Proof.
  split; [split; [reflexivity | right; left; reflexivity]|].
  destruct (chat_accepts_advertised_models Z z_to_string z_to_boolean v8_fault_message
              Script scripted chat_request (fresh [answer "hey"])
              [("messages", JArr conversation); ("model", JStr "gpt-4o-mini")]
              "gpt-4o-mini" eq_refl eq_refl eq_refl) as [H _].
  apply H. right. left. reflexivity.
Defined.

Lemma plan_advertised_models_witness :
  (name o1_request = "openai_plan" /\
   In (JStr "o1")
      (elements (prop_of (@argument_schema Z "openai_plan" "model") "enum"))) /\
  run_tool o1_request (fresh [answer "plan"]) =
    (Ok (error_envelope v8_fault_message
           (Error ("Unsupported model for reasoning: " ++ "o1"
                   ++ ". Must be one of: o1-preview, o1-mini, o1-2024-12-17"))),
     fresh [answer "plan"]).
Proof.
  split; [split; [reflexivity | right; right; left; reflexivity]|].
  destruct (plan_advertised_models Z z_to_string z_to_boolean v8_fault_message
              Script scripted o1_request (fresh [answer "plan"])
              [("messages", JArr [text_message "user" "hi"]); ("model", JStr "o1")]
              "o1" eq_refl eq_refl eq_refl) as [_ [_ [H _]]].
  - right. right. left. reflexivity.
  - apply H. left. reflexivity.
Defined.
